(* ===================================================================== *)
(*  eink-reader: pagination, navigation, screens and text layout          *)
(*                                                                        *)
(*  A shallow embedding of                                                *)
(*    core/book_manager.py    (BookManager)                               *)
(*    core/display_manager.py (DisplayManager.draw_text_box)              *)
(*    ui/screens.py           (HomeScreen, ReadingScreen)                 *)
(*  and the properties of the specification proved or refuted on it.      *)
(* ===================================================================== *)

From Stdlib Require Import ZArith NArith Lia List Bool String Ascii DecimalString.
From stdpp Require Import gmap strings list fin_maps.

Local Open Scope Z_scope.

(* ===================================================================== *)
(* 1. Python values                                                       *)
(* ===================================================================== *)

(* A Python str is a sequence of code points. *)
Abbreviation str := (list N).

(* An ASCII literal of the source, as a str. *)
Fixpoint py (s : string) : str :=
  match s with
  | EmptyString => []
  | String a s' => N_of_ascii a :: py s'
  end.

Definition NL : N := 10%N.
Definition SP : N := 32%N.

(* len(s) *)
Definition len {A} (l : list A) : Z := Z.of_nat (length l).

(* str.isspace on one code point; the same set is `\s` of a str pattern
   and what str.strip() removes. *)
Definition is_space (c : N) : bool :=
  ((9 <=? c) && (c <=? 13) || (28 <=? c) && (c <=? 32)
   || (c =? 133) || (c =? 160) || (c =? 5760)
   || (8192 <=? c) && (c <=? 8202)
   || (c =? 8232) || (c =? 8233) || (c =? 8239) || (c =? 8287)
   || (c =? 12288))%N.

Fixpoint lstrip (s : str) : str :=
  match s with
  | [] => []
  | c :: s' => if is_space c then lstrip s' else s
  end.

Definition rstrip (s : str) : str := rev (lstrip (rev s)).

(* s.strip() *)
Definition strip (s : str) : str := rstrip (lstrip s).

(* sep.join(l) *)
Fixpoint join (sep : str) (l : list str) : str :=
  match l with
  | [] => []
  | x :: l' =>
      match l' with
      | [] => x
      | _ :: _ => x ++ sep ++ join sep l'
      end
  end.

(* s.split(c) for a one-character separator c *)
Fixpoint split_on (c : N) (s : str) : list str :=
  match s with
  | [] => [[]]
  | d :: s' =>
      if (d =? c)%N then [] :: split_on c s'
      else match split_on c s' with
           | [] => [[d]]
           | w :: ws => (d :: w) :: ws
           end
  end.

(* l[:m] *)
Definition slice_to {A} (m : Z) (l : list A) : list A :=
  take (Z.to_nat (if m <? 0 then Z.max 0 (m + len l) else m)) l.

(* str(n) for a non-negative int *)
Definition str_of_nat (n : nat) : str :=
  py (NilEmpty.string_of_uint (Nat.to_uint n)).

(* Exceptions raised by the modelled code. *)
Inductive exn :=
| NameError (name : string)
| IndexError
| ZeroDivisionError
| TypeError.

Inductive outcome (A : Type) :=
| Return (a : A)
| Raise (e : exn).
Arguments Return {A} a.
Arguments Raise {A} e.

Definition bind {A B} (m : outcome A) (k : A -> outcome B) : outcome B :=
  match m with
  | Return a => k a
  | Raise e => Raise e
  end.

Notation "x <- m ;; k" := (bind m (fun x => k))
  (at level 100, m at next level, right associativity).

(* a // b on ints *)
Definition floordiv (a b : Z) : outcome Z :=
  if b =? 0 then Raise ZeroDivisionError else Return (a / b).

(* l[-1] *)
Definition last_item {A} (l : list A) : outcome A :=
  match last l with
  | Some x => Return x
  | None => Raise IndexError
  end.

(* l[i]: a negative index counts from the end *)
Definition py_index {A} (l : list A) (i : Z) : outcome A :=
  let j := if i <? 0 then i + len l else i in
  if j <? 0 then Raise IndexError
  else match l !! Z.to_nat j with
       | Some x => Return x
       | None => Raise IndexError
       end.

(* str(n) for an int *)
Definition str_of_Z (n : Z) : str :=
  if n <? 0 then py "-" ++ str_of_nat (Z.to_nat (- n)) else str_of_nat (Z.to_nat n).

(* ===================================================================== *)
(* 2. re.split(r'\n\s*\n', text)                                          *)
(* ===================================================================== *)

(* `\s*\n` at the head of s, greedy with backtracking: \s* first tries to
   take one more white-space character; when what follows cannot match, it
   stops here and `\n` must match the current character. The result is the
   text after the match. *)
Fixpoint match_ws_nl (s : str) : option str :=
  match s with
  | [] => None
  | c :: s' =>
      let stop_here := if (c =? NL)%N then Some s' else None in
      if is_space c then
        match match_ws_nl s' with
        | Some r => Some r
        | None => stop_here
        end
      else stop_here
  end.

(* `\n\s*\n` at the head of s *)
Definition match_blank (s : str) : option str :=
  match s with
  | [] => None
  | c :: s' => if (c =? NL)%N then match_ws_nl s' else None
  end.

(* The scan of re.split: `piece` is the text since the last separator. A
   match is at least two characters long, so the scan restarts on a proper
   suffix; `fuel` bounds the number of scan steps. *)
Fixpoint re_split_from (fuel : nat) (piece s : str) : list str :=
  match fuel with
  | O => [piece ++ s]
  | S fuel' =>
      match match_blank s with
      | Some rest => piece :: re_split_from fuel' [] rest
      | None =>
          match s with
          | [] => [piece]
          | c :: s' => re_split_from fuel' (piece ++ [c]) s'
          end
      end
  end.

Definition re_split (text : str) : list str :=
  re_split_from (S (length text)) [] text.

(* ===================================================================== *)
(* 3. External collaborators                                              *)
(* ===================================================================== *)

(* Floating point is kept abstract: the code only multiplies a pixel height
   by the line spacing and truncates, and stores time stamps. *)
Class Externals := {
  float : Type;
  (* int(h * s) for an int h and a float s *)
  int_mul : Z -> float -> Z;
  (* the literal 1.5 *)
  float_1_5 : float;
}.

Section Values.
Context `{Externals}.

(* The values stored in the config dict and passed as event data. *)
Inductive value :=
| VNone
| VBool (b : bool)
| VInt (n : Z)
| VFloat (f : float)
| VStr (s : str).

(* The dict stored under a bookmark name. *)
Record bookmark := {
  page : Z;
  timestamp : float;
}.

(* What BookManager reads from the file system. *)
Record FileSystem := {
  (* Path(p).exists() *)
  path_exists : str -> bool;
  (* Path(p).suffix.lower() *)
  suffix_lower : str -> str;
  (* the text the three loaders return; they catch their own errors *)
  load_txt : str -> str;
  load_epub : str -> str;
  load_pdf : str -> str;
  (* the bookmark sidecar of a book: None when the file is absent,
     Some None when json.load fails, Some (Some m) when it parses to m *)
  sidecar : str -> option (option (gmap str bookmark));
}.

End Values.

(* ===================================================================== *)
(* 4. core/book_manager.py                                                *)
(* ===================================================================== *)

Module BookManager.
Section BookManager.
Context `{Externals}.

Record t := {
  current_book_path : option str;
  pages : list str;
  current_page : Z;
  total_pages : Z;
  bookmarks : gmap str bookmark;
}.

(* __init__ *)
Definition init : t :=
  {| current_book_path := None; pages := []; current_page := 0;
     total_pages := 0; bookmarks := ∅ |}.

(* The names bound at module level of book_manager.py: its imports and the
   class. No builtin is called `time`. *)
Definition module_globals : list string :=
  ["os"; "re"; "logging"; "Path"; "List"; "Dict"; "Optional"; "BookManager"]%string.

Definition global_defined (name : string) : bool :=
  existsb (String.eqb name) module_globals.

(* "空内容" *)
Definition placeholder : str := [31354; 20869; 23481]%N.

(* The local variables of the loop of split_into_pages. *)
Record locals := {
  l_pages : list str;
  l_current_page : list str;
  l_current_chars : Z;
}.

(* One iteration of `for para in paragraphs`. *)
Definition loop_body (chars_per_page : Z) (st : locals) (para : str) : locals :=
  let para := strip para in
  match para with
  | [] => st
  | _ :: _ =>
      let para_chars := len para in
      if (l_current_chars st + para_chars <=? chars_per_page)
         || (match l_current_page st with [] => true | _ :: _ => false end)
      then {| l_pages := l_pages st;
              l_current_page := l_current_page st ++ [para];
              l_current_chars := l_current_chars st + para_chars |}
      else {| l_pages := l_pages st ++ [join [NL] (l_current_page st)];
              l_current_page := [para];
              l_current_chars := para_chars |}
  end.

(* The statements after the loop. *)
Definition flush (st : locals) : list str :=
  match l_current_page st with
  | [] => l_pages st
  | _ :: _ => l_pages st ++ [join [NL] (l_current_page st)]
  end.

Definition split_into_pages (text : str) (chars_per_page : Z) : list str :=
  match text with
  | [] => [placeholder]
  | _ :: _ =>
      let paragraphs := re_split text in
      flush (fold_left (loop_body chars_per_page) paragraphs
               {| l_pages := []; l_current_page := []; l_current_chars := 0 |})
  end.

Definition get_page (self : t) (page_num : Z) : option str :=
  if (0 <=? page_num) && (page_num <? len (pages self))
  then pages self !! Z.to_nat page_num
  else None.

Definition get_current_page (self : t) : option str :=
  get_page self (current_page self).

Definition set_current_page (self : t) (n : Z) : t :=
  {| current_book_path := current_book_path self; pages := pages self;
     current_page := n; total_pages := total_pages self;
     bookmarks := bookmarks self |}.

Definition go_to_page (self : t) (page_num : Z) : t * bool :=
  if (0 <=? page_num) && (page_num <? len (pages self))
  then (set_current_page self page_num, true)
  else (self, false).

Definition next_page (self : t) : t * bool :=
  go_to_page self (current_page self + 1).

Definition prev_page (self : t) : t * bool :=
  go_to_page self (current_page self - 1).

(* load_bookmarks: the dict is replaced only when the sidecar exists. *)
Definition load_bookmarks (fs : FileSystem) (self : t) (book_path : str) : t :=
  match sidecar fs book_path with
  | None => self
  | Some r =>
      {| current_book_path := current_book_path self; pages := pages self;
         current_page := current_page self; total_pages := total_pages self;
         bookmarks := match r with Some m => m | None => ∅ end |}
  end.

(* load_book. The loaders return text and never raise, so the enclosing
   try/except has no case of its own. *)
Definition load_book (fs : FileSystem) (self : t) (book_path : str) : t * bool :=
  if negb (path_exists fs book_path) then (self, false)
  else
    let self1 :=
      {| current_book_path := Some book_path; pages := pages self;
         current_page := 0; total_pages := total_pages self;
         bookmarks := bookmarks self |} in
    let suffix := suffix_lower fs book_path in
    let loaded :=
      if decide (suffix = py ".txt") then Some (load_txt fs book_path)
      else if decide (suffix = py ".epub") then Some (load_epub fs book_path)
      else if decide (suffix = py ".pdf") then Some (load_pdf fs book_path)
      else None in
    match loaded with
    | None => (self1, false)
    | Some content =>
        let pages' := split_into_pages content 1500 in
        let self2 :=
          {| current_book_path := current_book_path self1; pages := pages';
             current_page := current_page self1; total_pages := len pages';
             bookmarks := bookmarks self1 |} in
        (load_bookmarks fs self2 book_path, true)
    end.

(* add_bookmark. `now` is what time.time() would return. The dict display
   on the right of the assignment is evaluated first, and in it the global
   name `time` is looked up before anything is stored. *)
Definition add_bookmark (self : t) (name : option str) (now : float)
  : t * outcome bool :=
  match current_book_path self with
  | None => (self, Return false)
  | Some _ =>
      let name :=
        match name with
        | None => [20070; 31614; 32]%N ++ str_of_nat (size (bookmarks self) + 1)
        | Some n => n
        end in
      if global_defined "time" then
        ({| current_book_path := current_book_path self; pages := pages self;
            current_page := current_page self; total_pages := total_pages self;
            bookmarks := <[name := {| page := current_page self; timestamp := now |}]>
                           (bookmarks self) |},
         Return true)
      else (self, Raise (NameError "time"))
  end.

Definition goto_bookmark (self : t) (name : str) : t * bool :=
  match bookmarks self !! name with
  | Some b => go_to_page self (page b)
  | None => (self, false)
  end.

End BookManager.
End BookManager.

(* ===================================================================== *)
(* 5. core/display_manager.py                                             *)
(* ===================================================================== *)

Module DisplayManager.
Section DisplayManager.
Context `{Externals}.

(* A loaded font, as ImageDraw.textbbox((0, 0), s, font=font) sees it:
   the box (left, top, right, bottom) of a text. *)
Definition Font := str -> Z * Z * Z * Z.

Definition bbox_width (b : Z * Z * Z * Z) : Z :=
  let '(b0, _, b2, _) := b in b2 - b0.

Definition bbox_height (b : Z * Z * Z * Z) : Z :=
  let '(_, b1, _, b3) := b in b3 - b1.

Record t := {
  config : gmap string value;
  width : Z;
  height : Z;
  get_font : value -> Font;
}.

(* int(h * line_spacing); a line spacing that is not a number is reported
   as a type error. *)
Definition int_times (h : Z) (v : value) : outcome Z :=
  match v with
  | VInt n => Return (h * n)
  | VBool b => Return (h * Z.b2z b)
  | VFloat f => Return (int_mul h f)
  | VNone | VStr _ => Raise TypeError
  end.

(* "测试" *)
Definition sample : str := [27979; 35797]%N.

(* The local variables of the wrapping loop. *)
Record wrap := {
  w_lines : list str;
  w_current_line : str;
}.

(* One iteration of `for word in words`. *)
Definition wrap_body (font : Font) (width : Z) (st : wrap) (word : str) : wrap :=
  let test_line := strip (w_current_line st ++ [SP] ++ word) in
  let text_width := bbox_width (font test_line) in
  if (text_width <=? width)
     || (match w_current_line st with [] => true | _ :: _ => false end)
  then {| w_lines := w_lines st; w_current_line := test_line |}
  else {| w_lines := w_lines st ++ [w_current_line st]; w_current_line := word |}.

Definition wrap_lines (font : Font) (width : Z) (text : str) : list str :=
  let st := fold_left (wrap_body font width) (split_on SP text)
              {| w_lines := []; w_current_line := [] |} in
  match w_current_line st with
  | [] => w_lines st
  | _ :: _ => w_lines st ++ [w_current_line st]
  end.

(* "..." *)
Definition ellipsis : str := py "...".

(* The block under the comment "cut the lines that do not fit". *)
Definition truncate (max_lines : Z) (lines : list str) : outcome (list str) :=
  if max_lines <? len lines then
    let lines := slice_to max_lines lines in
    if max_lines <=? len lines then
      l <- last_item lines ;;
      Return (<[(length lines - 1)%nat := slice_to (-3) l ++ ellipsis]> lines)
    else Return lines
  else Return lines.

(* The calls draw.text((line_x, line_y), line, ...) made on the image. *)
Definition image := list (Z * Z * str).

Definition draw_lines (font : Font) (x width y_start line_height : Z)
    (align : string) (lines : list str) : image :=
  imap (fun i line =>
          let line_y := y_start + Z.of_nat i * line_height in
          let text_width := bbox_width (font line) in
          let line_x :=
            if String.eqb align "center" then x + (width - text_width) / 2
            else if String.eqb align "right" then x + width - text_width
            else x in
          (line_x, line_y, line)) lines.

(* `if font_size is None: font_size = self.config.get("font_size", 20)` *)
Definition font_size_or_default (self : t) (font_size : option value) : value :=
  match font_size with
  | None => default (VInt 20) (config self !! "font_size"%string)
  | Some v => v
  end.

(* `if line_spacing is None: line_spacing = self.config.get("line_spacing", 1.5)` *)
Definition line_spacing_or_default (self : t) (line_spacing : option value) : value :=
  match line_spacing with
  | None => default (VFloat float_1_5) (config self !! "line_spacing"%string)
  | Some v => v
  end.

Definition draw_text_box (self : t) (text : str) (x y width height : Z)
    (font_size line_spacing : option value) (align valign : string)
  : outcome (image * Z) :=
  let font_size := font_size_or_default self font_size in
  let line_spacing := line_spacing_or_default self line_spacing in
  let font := get_font self font_size in
  line_height <- int_times (bbox_height (font sample)) line_spacing ;;
  let lines := wrap_lines font width text in
  max_lines <- floordiv height line_height ;;
  lines <- truncate max_lines lines ;;
  let y_start :=
    if String.eqb valign "center" then y + (height - len lines * line_height) / 2
    else if String.eqb valign "bottom" then y + height - len lines * line_height
    else y in
  Return (draw_lines font x width y_start line_height align lines, len lines).

(* The keyword arguments of a call, **kwargs: the names are distinct. *)
Definition kwargs : Type := list (string * value).

(* kwargs.get(name) *)
Definition kw_get (name : string) (kw : kwargs) : option value :=
  match List.find (fun p => String.eqb (fst p) name) kw with
  | Some p => Some (snd p)
  | None => None
  end.

(* A value that the callee only compares with ASCII literals: the literal
   it is equal to, if any. No literal is the empty string. *)
Definition as_literal (v : value) : string :=
  match v with
  | VStr s =>
      if forallb (fun c => (c <? 256)%N) s
      then string_of_list_ascii (map ascii_of_N s)
      else EmptyString
  | _ => EmptyString
  end.

(* An argument that is None when it is absent or passed as None. *)
Definition optional (o : option value) : option value :=
  match o with
  | Some VNone => None
  | _ => o
  end.

(* The keyword parameters of draw_text_box. *)
Definition draw_text_box_keywords : list string :=
  ["font_size"; "line_spacing"; "align"; "valign"]%string.

(* self.draw_text_box(text, x, y, width, height, **kwargs): a keyword that
   is no keyword parameter of draw_text_box (or names one of the positional
   arguments given) is a TypeError, raised before the body runs. *)
Definition draw_text_box_kw (self : t) (text : str) (x y width height : Z)
    (kw : kwargs) : outcome (image * Z) :=
  if forallb (fun p => existsb (String.eqb (fst p)) draw_text_box_keywords) kw
  then draw_text_box self text x y width height
         (optional (kw_get "font_size" kw))
         (optional (kw_get "line_spacing" kw))
         (match kw_get "align" kw with Some v => as_literal v | None => "left"%string end)
         (match kw_get "valign" kw with Some v => as_literal v | None => "top"%string end)
  else Raise TypeError.

(* draw_page_info: the text is drawn centred, 10 pixels above the bottom
   edge, in the font of size 12; a page_info that is no str is rejected by
   textbbox. *)
Definition draw_page_info (self : t) (img : image) (page_info : value)
  : outcome image :=
  match page_info with
  | VStr s =>
      let font := get_font self (VInt 12) in
      let x := (width self - bbox_width (font s)) / 2 in
      let y := height self - bbox_height (font s) - 10 in
      Return (img ++ [(x, y, s)])
  | _ => Raise TypeError
  end.

(* The body of draw_text_page once the margin is known to be an int. *)
Definition text_page (self : t) (margin : Z) (text : str) (kw : kwargs)
  : outcome image :=
  let width := width self - 2 * margin in
  let height := height self - 2 * margin in
  r <- draw_text_box_kw self text margin margin width height kw ;;
  match kw_get "page_info" kw with
  | Some page_info => draw_page_info self (fst r) page_info
  | None => Return (fst r)
  end.

(* draw_text_page(text, **kwargs). The image returned is the one stored in
   current_image. A margin that is None or a str makes the arithmetic a
   TypeError; with a float margin the geometry is in floating point, which
   is not modelled: None. *)
Definition draw_text_page (self : t) (text : str) (kw : kwargs)
  : option (outcome image) :=
  match default (VInt 20) (config self !! "margin"%string) with
  | VInt margin => Some (text_page self margin text kw)
  | VBool b => Some (text_page self (Z.b2z b) text kw)
  | VNone | VStr _ => Some (Raise TypeError)
  | VFloat _ => None
  end.

End DisplayManager.
End DisplayManager.

(* ===================================================================== *)
(* 6. ui/screens.py                                                       *)
(* ===================================================================== *)

(* The second component of the pair a handler returns: None, or the dict
   {"path": p} of LOAD_BOOK. *)
Inductive payload :=
| PNone
| PPath (p : str).

Definition command : Type := string * payload.

Module HomeScreen.
Section HomeScreen.
Context `{Externals}.

(* An entry of BookManager.list_books(). *)
Record book := {
  path : str;
  name : str;
  size : str;
  modified : float;
  extension : str;
}.

Record t := {
  books : list book;
  items_per_page : Z;
  current_page : Z;
  selected_index : Z;
  need_refresh : bool;
}.

(* __init__ *)
Definition init : t :=
  {| books := []; items_per_page := 6; current_page := 0;
     selected_index := 0; need_refresh := true |}.

Definition update (self : t) (page sel : Z) : t :=
  {| books := books self; items_per_page := items_per_page self;
     current_page := page; selected_index := sel; need_refresh := true |}.

Definition handle_event (self : t) (event_type : string) (event_data : value)
  : t * outcome (option command) :=
  if String.eqb event_type "NEXT_PAGE" then
    match floordiv (len (books self) + items_per_page self - 1) (items_per_page self) with
    | Raise e => (self, Raise e)
    | Return total_pages =>
        if current_page self <? total_pages - 1
        then (update self (current_page self + 1) (selected_index self),
              Return (Some ("REFRESH"%string, PNone)))
        else (self, Return None)
    end
  else if String.eqb event_type "PREV_PAGE" then
    if 0 <? current_page self
    then (update self (current_page self - 1) (selected_index self),
          Return (Some ("REFRESH"%string, PNone)))
    else (self, Return None)
  else if String.eqb event_type "UP" then
    if 0 <? selected_index self then
      let sel := selected_index self - 1 in
      let page :=
        if sel <? current_page self * items_per_page self
        then Z.max 0 (current_page self - 1)
        else current_page self in
      (update self page sel, Return (Some ("REFRESH"%string, PNone)))
    else (self, Return None)
  else if String.eqb event_type "DOWN" then
    if selected_index self <? len (books self) - 1 then
      let sel := selected_index self + 1 in
      let page :=
        if (current_page self + 1) * items_per_page self <=? sel
        then current_page self + 1
        else current_page self in
      (update self page sel, Return (Some ("REFRESH"%string, PNone)))
    else (self, Return None)
  else if String.eqb event_type "SELECT" then
    if (0 <=? selected_index self) && (selected_index self <? len (books self)) then
      match books self !! Z.to_nat (selected_index self) with
      | Some b => (self, Return (Some ("LOAD_BOOK"%string, PPath (path b))))
      | None => (self, Raise IndexError)
      end
    else (self, Return None)
  else if String.eqb event_type "SHOW_MENU" then
    (self, Return (Some ("SHOW_MENU"%string, PNone)))
  else (self, Return None).

(* name[:17] + "..." for a name of more than 20 characters *)
Definition shown_name (name : str) : str :=
  if 20 <? len name then slice_to 17 name ++ py "..." else name.

(* The line of book i: the selection mark or two spaces, the name and the
   size in brackets. *)
Definition row (self : t) (i : Z) : outcome str :=
  b <- py_index (books self) i ;;
  let prefix := if i =? selected_index self then [9654; 32]%N else py "  " in
  Return (prefix ++ shown_name (name b) ++ py " (" ++ size b ++ py ")").

(* The lines appended by `for i in range(start_idx, end_idx)`. *)
Fixpoint rows (self : t) (indices : list Z) : outcome (list str) :=
  match indices with
  | [] => Return []
  | i :: indices' =>
      r <- row self i ;;
      rs <- rows self indices' ;;
      Return (r :: rs)
  end.

(* render. `dm` is the DisplayManager built from the config, with the width
   and height of the screen; `listed` is what list_books() returns. The
   result is the screen, with its list replaced, and the image handed to the
   display, as draw_text_page gives it. *)
Definition render (dm : DisplayManager.t) (listed : list book) (self : t)
  : t * option (outcome DisplayManager.image) :=
  let self :=
    {| books := listed; items_per_page := items_per_page self;
       current_page := current_page self; selected_index := selected_index self;
       need_refresh := need_refresh self |} in
  match floordiv (len (books self) + items_per_page self - 1) (items_per_page self) with
  | Raise e => (self, Some (Raise e))
  | Return total_pages =>
      let start_idx := current_page self * items_per_page self in
      let end_idx := Z.min (start_idx + items_per_page self) (len (books self)) in
      match rows self (seqZ start_idx (end_idx - start_idx)) with
      | Raise e => (self, Some (Raise e))
      | Return rs =>
          let lines :=
            [[128218; 32; 25105; 30340; 20070; 26550]%N; []] ++ rs
            ++ [[];
                [31532; 32]%N ++ str_of_Z (current_page self + 1) ++ py "/"
                ++ str_of_Z total_pages ++ [32; 39029]%N;
                [];
                [20351; 29992; 32; 8593; 8595; 32; 36873; 25321; 65292; 8592;
                 8594; 32; 32763; 39029; 65292; 69; 78; 84; 69; 82; 32; 25171;
                 24320]%N] in
          let content := join [NL] lines in
          let page_info :=
            [20849; 32]%N ++ str_of_Z (len (books self)) ++ [32; 26412; 20070]%N in
          (self,
           DisplayManager.draw_text_page dm content
             [("page_info"%string, VStr page_info)])
      end
  end.

End HomeScreen.
End HomeScreen.

Module ReadingScreen.
Section ReadingScreen.
Context `{Externals}.

(* The objects every screen holds a reference to: what a handler changes
   in them is seen by the other screens and by the application. *)
Record shared := {
  book_manager : BookManager.t;
  config : gmap string value;
}.

(* The state of the screen itself. *)
Record t := {
  selected_index : Z;
  need_refresh : bool;
}.

(* The three statements run after a successful move. *)
Definition moved (bm : BookManager.t) (sh : shared) (self : t)
  : shared * t * option command :=
  ({| book_manager := bm;
      config := <["current_page"%string := VInt (BookManager.current_page bm)]>
                  (config sh) |},
   {| selected_index := selected_index self; need_refresh := true |},
   Some ("SAVE_CONFIG"%string, PNone)).

Definition handle_event (sh : shared) (self : t) (event_type : string)
    (event_data : value) : shared * t * option command :=
  if String.eqb event_type "NEXT_PAGE" then
    let '(bm, ok) := BookManager.next_page (book_manager sh) in
    if ok then moved bm sh self else (sh, self, None)
  else if String.eqb event_type "PREV_PAGE" then
    let '(bm, ok) := BookManager.prev_page (book_manager sh) in
    if ok then moved bm sh self else (sh, self, None)
  else if String.eqb event_type "SHOW_HOME" then
    (sh, self, Some ("SHOW_HOME"%string, PNone))
  else if String.eqb event_type "SHOW_MENU" then
    (sh, self, Some ("SHOW_MENU"%string, PNone))
  else if String.eqb event_type "GOTO_PAGE" then
    (* isinstance(event_data, int); bool is a subclass of int *)
    let page_num :=
      match event_data with
      | VInt n => Some n
      | VBool b => Some (Z.b2z b)
      | _ => None
      end in
    match page_num with
    | Some n =>
        let '(bm, ok) := BookManager.go_to_page (book_manager sh) n in
        if ok then moved bm sh self else (sh, self, None)
    | None => (sh, self, None)
    end
  else (sh, self, None).

(* render. `dm` is the DisplayManager built from the config, with the width
   and height of the screen; `path_name` is Path.name. The result is the
   image handed to the display, as draw_text_page gives it. *)
Definition render (dm : DisplayManager.t) (path_name : str -> str) (sh : shared)
  : option (outcome DisplayManager.image) :=
  let no_book :=
    DisplayManager.draw_text_page dm
      [26242; 26080; 25171; 24320; 30340; 20070; 31821; 10; 10; 25353; 32; 72;
       79; 77; 69; 32; 38190; 36820; 22238; 20027; 23631; 24149]%N [] in
  match BookManager.current_book_path (book_manager sh) with
  | None => no_book
  | Some p =>
      let book_name := path_name p in
      let current_page := BookManager.current_page (book_manager sh) + 1 in
      let total_pages := BookManager.total_pages (book_manager sh) in
      match BookManager.get_current_page (book_manager sh) with
      | None | Some [] => no_book
      | Some (_ :: _ as page_content) =>
          let content := (book_name ++ [NL]) ++ page_content in
          let page_info :=
            [31532; 32]%N ++ str_of_Z current_page ++ py "/"
            ++ str_of_Z total_pages ++ [32; 39029]%N in
          DisplayManager.draw_text_page dm content
            [("page_info"%string, VStr page_info)]
      end
  end.

End ReadingScreen.
End ReadingScreen.

Module MenuScreen.
Section MenuScreen.
Context `{Externals}.

(* The entries of the menu: the text shown and the action. *)
Definition menu_items : list (str * string) :=
  [ ([36820; 22238]%N, "BACK"%string);
    ([35774; 32622]%N, "SETTINGS"%string);
    ([20070; 31614]%N, "BOOKMARKS"%string);
    ([87; 105; 45; 70; 105; 20256; 20070]%N, "WIFI_UPLOAD"%string);
    ([20851; 20110]%N, "ABOUT"%string);
    ([20851; 26426]%N, "SHUTDOWN"%string) ].

Record t := {
  selected_index : Z;
  need_refresh : bool;
}.

(* __init__ *)
Definition init : t := {| selected_index := 0; need_refresh := true |}.

(* The menu reads the book manager and changes only itself. *)
Definition handle_event (book_manager : BookManager.t) (self : t)
    (event_type : string) (event_data : value) : t * outcome (option command) :=
  if String.eqb event_type "UP" then
    if 0 <? selected_index self
    then ({| selected_index := selected_index self - 1; need_refresh := true |},
          Return (Some ("REFRESH"%string, PNone)))
    else (self, Return None)
  else if String.eqb event_type "DOWN" then
    if selected_index self <? len menu_items - 1
    then ({| selected_index := selected_index self + 1; need_refresh := true |},
          Return (Some ("REFRESH"%string, PNone)))
    else (self, Return None)
  else if String.eqb event_type "SELECT" then
    match py_index menu_items (selected_index self) with
    | Raise e => (self, Raise e)
    | Return (_, action) =>
        if String.eqb action "BACK" then
          match BookManager.current_book_path book_manager with
          | Some _ => (self, Return (Some ("SHOW_READING"%string, PNone)))
          | None => (self, Return (Some ("SHOW_HOME"%string, PNone)))
          end
        else if String.eqb action "SETTINGS" then
          (self, Return (Some ("SHOW_SETTINGS"%string, PNone)))
        else if String.eqb action "BOOKMARKS" then
          (self, Return (Some ("SHOW_BOOKMARKS"%string, PNone)))
        else if String.eqb action "WIFI_UPLOAD" then
          (self, Return (Some ("START_WIFI_UPLOAD"%string, PNone)))
        else if String.eqb action "ABOUT" then
          (self, Return (Some ("SHOW_ABOUT"%string, PNone)))
        else if String.eqb action "SHUTDOWN" then
          (self, Return (Some ("SHUTDOWN_CONFIRM"%string, PNone)))
        else (self, Return None)
    end
  else if String.eqb event_type "SHOW_HOME" then
    (self, Return (Some ("SHOW_HOME"%string, PNone)))
  else (self, Return None).

(* render. `dm` is the DisplayManager built from the config, with the width
   and height of the screen. *)
Definition render (dm : DisplayManager.t) (self : t)
  : option (outcome DisplayManager.image) :=
  let lines :=
    [[9881; 65039; 32; 33756; 21333]%N; []]
    ++ imap (fun i item =>
               (if Z.of_nat i =? selected_index self then [9654; 32]%N else py "  ")
               ++ fst item) menu_items
    ++ [[];
        [20351; 29992; 32; 8593; 8595; 32; 36873; 25321; 65292; 69; 78; 84; 69;
         82; 32; 30830; 35748; 65292; 72; 79; 77; 69; 32; 36820; 22238]%N] in
  DisplayManager.draw_text_page dm (join [NL] lines) [].

End MenuScreen.
End MenuScreen.

(* ===================================================================== *)
(* 6b. main.py: the dispatch of events                                    *)
(* ===================================================================== *)

Module EinkReader.
Section EinkReader.
Context `{Externals}.

(* What the application does to the outside: config.json written with a
   config, and an image handed to the display. *)
Inductive effect :=
| SavedConfig (config : gmap string value)
| Displayed (img : DisplayManager.image).

(* The outside, as the application reads it. *)
Record World := {
  fs : FileSystem;
  (* DisplayManager(config), with the width and height of the display *)
  display_manager : gmap string value -> DisplayManager.t;
  (* BookManager.list_books() *)
  list_books : list HomeScreen.book;
  (* Path.name *)
  path_name : str -> str;
}.

Record t := {
  running : bool;
  current_screen : string;
  (* the objects shared with the screens *)
  shared : ReadingScreen.shared;
  (* self.screens: "home", "reading" and "menu" *)
  home : HomeScreen.t;
  reading : ReadingScreen.t;
  menu : MenuScreen.t;
  (* the effects so far, in order *)
  effects : list effect;
}.

(* How a call ends other than by returning: an exception of the modelled
   code, the recursion limit of the interpreter, or a step that is not
   modelled (floating-point geometry). *)
Inductive failure :=
| Exception (e : exn)
| RecursionError
| Unmodelled.

Inductive result :=
| Done
| Failed (f : failure).

Definition set_running (self : t) (b : bool) : t :=
  {| running := b; current_screen := current_screen self; shared := shared self;
     home := home self; reading := reading self; menu := menu self;
     effects := effects self |}.

Definition set_current_screen (self : t) (name : string) : t :=
  {| running := running self; current_screen := name; shared := shared self;
     home := home self; reading := reading self; menu := menu self;
     effects := effects self |}.

Definition set_shared (self : t) (sh : ReadingScreen.shared) : t :=
  {| running := running self; current_screen := current_screen self; shared := sh;
     home := home self; reading := reading self; menu := menu self;
     effects := effects self |}.

Definition set_home (self : t) (s : HomeScreen.t) : t :=
  {| running := running self; current_screen := current_screen self;
     shared := shared self; home := s; reading := reading self; menu := menu self;
     effects := effects self |}.

Definition set_reading (self : t) (s : ReadingScreen.t) : t :=
  {| running := running self; current_screen := current_screen self;
     shared := shared self; home := home self; reading := s; menu := menu self;
     effects := effects self |}.

Definition set_menu (self : t) (s : MenuScreen.t) : t :=
  {| running := running self; current_screen := current_screen self;
     shared := shared self; home := home self; reading := reading self; menu := s;
     effects := effects self |}.

Definition add_effect (self : t) (e : effect) : t :=
  {| running := running self; current_screen := current_screen self;
     shared := shared self; home := home self; reading := reading self;
     menu := menu self; effects := effects self ++ [e] |}.

(* save_config: the write catches its own errors. *)
Definition save_config (self : t) : t :=
  add_effect self (SavedConfig (ReadingScreen.config (shared self))).

(* How a render ends, and the image it displays. *)
Definition rendered (r : option (outcome DisplayManager.image))
  : failure + DisplayManager.image :=
  match r with
  | None => inl Unmodelled
  | Some (Raise e) => inl (Exception e)
  | Some (Return img) => inr img
  end.

(* BaseScreen.show on each screen: render when need_refresh is set, then
   clear the flag. *)
Definition show_home (w : World) (self : t) : t * result :=
  if HomeScreen.need_refresh (home self) then
    let dm := display_manager w (ReadingScreen.config (shared self)) in
    let '(home', r) := HomeScreen.render dm (list_books w) (home self) in
    match rendered r with
    | inl f => (set_home self home', Failed f)
    | inr img =>
        (add_effect
           (set_home self
              {| HomeScreen.books := HomeScreen.books home';
                 HomeScreen.items_per_page := HomeScreen.items_per_page home';
                 HomeScreen.current_page := HomeScreen.current_page home';
                 HomeScreen.selected_index := HomeScreen.selected_index home';
                 HomeScreen.need_refresh := false |})
           (Displayed img), Done)
    end
  else (self, Done).

Definition show_reading (w : World) (self : t) : t * result :=
  if ReadingScreen.need_refresh (reading self) then
    let dm := display_manager w (ReadingScreen.config (shared self)) in
    match rendered (ReadingScreen.render dm (path_name w) (shared self)) with
    | inl f => (self, Failed f)
    | inr img =>
        (add_effect
           (set_reading self
              {| ReadingScreen.selected_index :=
                   ReadingScreen.selected_index (reading self);
                 ReadingScreen.need_refresh := false |})
           (Displayed img), Done)
    end
  else (self, Done).

Definition show_menu (w : World) (self : t) : t * result :=
  if MenuScreen.need_refresh (menu self) then
    let dm := display_manager w (ReadingScreen.config (shared self)) in
    match rendered (MenuScreen.render dm (menu self)) with
    | inl f => (self, Failed f)
    | inr img =>
        (add_effect
           (set_menu self
              {| MenuScreen.selected_index := MenuScreen.selected_index (menu self);
                 MenuScreen.need_refresh := false |})
           (Displayed img), Done)
    end
  else (self, Done).

Definition show_current_screen (w : World) (self : t) : t * result :=
  if String.eqb (current_screen self) "home" then show_home w self
  else if String.eqb (current_screen self) "reading" then show_reading w self
  else if String.eqb (current_screen self) "menu" then show_menu w self
  else (self, Done).

(* load_book; the value True or False it returns is not used. *)
Definition load_book (w : World) (self : t) (book_path : str) : t * result :=
  let '(bm, ok) :=
    BookManager.load_book (fs w) (ReadingScreen.book_manager (shared self)) book_path in
  if ok then
    let config :=
      <["current_page"%string := VInt 0]>
        (<["current_book"%string := VStr book_path]>
           (ReadingScreen.config (shared self))) in
    let self :=
      set_shared self
        {| ReadingScreen.book_manager := bm; ReadingScreen.config := config |} in
    show_current_screen w (set_current_screen (save_config self) "reading")
  else
    (set_shared self
       {| ReadingScreen.book_manager := bm;
          ReadingScreen.config := ReadingScreen.config (shared self) |}, Done).

(* The event data as a screen sees it. The screens only test whether it is
   an int, and the dict of LOAD_BOOK is none. *)
Definition as_value (event_data : payload) : value :=
  match event_data with
  | PNone => VNone
  | PPath p => VStr p
  end.

(* self.screens[self.current_screen].handle_event(event_type, event_data),
   when the current screen is one of the three. *)
Definition dispatch (self : t) (event_type : string) (event_data : payload)
  : t * outcome (option command) :=
  if String.eqb (current_screen self) "home" then
    let '(s, r) := HomeScreen.handle_event (home self) event_type (as_value event_data) in
    (set_home self s, r)
  else if String.eqb (current_screen self) "reading" then
    let '(sh, s, r) :=
      ReadingScreen.handle_event (shared self) (reading self) event_type
        (as_value event_data) in
    (set_reading (set_shared self sh) s, Return r)
  else if String.eqb (current_screen self) "menu" then
    let '(s, r) :=
      MenuScreen.handle_event (ReadingScreen.book_manager (shared self)) (menu self)
        event_type (as_value event_data) in
    (set_menu self s, r)
  else (self, Return None).

(* The part of handle_event under "system events". *)
Definition system_event (w : World) (self : t) (event_type : string)
    (event_data : payload) : t * result :=
  if String.eqb event_type "LOAD_BOOK" then
    match event_data with
    | PNone => (self, Failed (Exception TypeError))
    | PPath p => load_book w self p
    end
  else if String.eqb event_type "EXIT" then (set_running self false, Done)
  else if String.eqb event_type "SAVE_CONFIG" then (save_config self, Done)
  else if String.eqb event_type "SHOW_HOME" then
    show_current_screen w (set_current_screen self "home")
  else if String.eqb event_type "SHOW_MENU" then
    show_current_screen w (set_current_screen self "menu")
  else (self, Done).

(* handle_event. The command a screen returns is handled by a recursive
   call before the system part of the event itself; `depth` is the number of
   nested calls the interpreter still allows. *)
Fixpoint handle_event (depth : nat) (w : World) (self : t) (event_type : string)
    (event_data : payload) : t * result :=
  match depth with
  | O => (self, Failed RecursionError)
  | S depth' =>
      match dispatch self event_type event_data with
      | (self, Raise e) => (self, Failed (Exception e))
      | (self, Return None) => system_event w self event_type event_data
      | (self, Return (Some (event, data))) =>
          match handle_event depth' w self event data with
          | (self, Done) => system_event w self event_type event_data
          | (self, Failed f) => (self, Failed f)
          end
      end
  end.

(* handle_button: the event of a click. *)
Definition button_event (button : string) : option string :=
  if String.eqb button "PREV" then Some "PREV_PAGE"%string
  else if String.eqb button "NEXT" then Some "NEXT_PAGE"%string
  else if String.eqb button "HOME" then Some "SHOW_HOME"%string
  else if String.eqb button "MENU" then Some "SHOW_MENU"%string
  else None.

Definition handle_button (depth : nat) (w : World) (self : t) (button : string)
  : t * result :=
  match button_event button with
  | Some event_type => handle_event depth w self event_type PNone
  | None => (self, Done)
  end.

Definition handle_button_long (depth : nat) (w : World) (self : t)
    (button : string) : t * result :=
  if String.eqb button "HOME" then handle_event depth w self "EXIT" PNone
  else (self, Done).

End EinkReader.
End EinkReader.

(* ===================================================================== *)
(* 7. The paginator as the specification words it                         *)
(* ===================================================================== *)

Definition nonempty (s : str) : bool :=
  match s with
  | [] => false
  | _ :: _ => true
  end.

(* The trimmed, non-empty paragraphs of a text, in order. *)
Definition paragraphs (text : str) : list str :=
  List.filter nonempty (map strip (re_split text)).

(* The sum of the lengths of the paragraphs on a page. *)
Definition page_chars (pg : list str) : Z :=
  fold_right (fun p n => len p + n) 0 pg.

(* Greedy accumulation: `pg` is the current page, as a list of paragraphs. *)
Fixpoint greedy (budget : Z) (pg : list str) (paras : list str)
  : list (list str) :=
  match paras with
  | [] => match pg with [] => [] | _ :: _ => [pg] end
  | p :: ps =>
      if (match pg with [] => true | _ :: _ => false end)
         || (page_chars pg + len p <=? budget)
      then greedy budget (pg ++ [p]) ps
      else pg :: greedy budget [p] ps
  end.

(* A paragraph has no white space at either end. *)
Definition trimmed (p : str) : Prop :=
  (forall c, head p = Some c -> is_space c = false) /\
  (forall c, last p = Some c -> is_space c = false).

(* An instance of the externals for concrete evaluations: floats that are
   exact fractions n/d, truncated towards zero by int(). *)
Definition exact_floats : Externals :=
  {| float := Z * positive;
     int_mul := fun h s => Z.quot (h * fst s) (Zpos (snd s));
     float_1_5 := (3, 2%positive) |}.

(* Two paragraphs with a blank line between them: a + "\n\n" + b. *)
Definition two_paragraphs (a b : string) : str := py a ++ [NL; NL] ++ py b.

(* C4 as the specification states it: a page is within the budget unless it
   is a single paragraph that is itself over the budget. *)
Definition within_budget_as_stated (text : str) (B : Z) : Prop :=
  Forall (fun pg => len pg <= B \/ (In pg (paragraphs text) /\ B < len pg))
         (BookManager.split_into_pages text B).

Section Navigation.
Context `{Externals}.

(* total_pages is len(pages): __init__ and load_book set them together. *)
Definition consistent (st : BookManager.t) : Prop :=
  BookManager.total_pages st = len (BookManager.pages st).

(* The invariant of the page cursor. *)
Definition cursor_ok (st : BookManager.t) : Prop :=
  (0 < BookManager.total_pages st ->
   0 <= BookManager.current_page st < BookManager.total_pages st) /\
  (BookManager.total_pages st = 0 -> BookManager.current_page st = 0).

(* A call of one of the three navigation methods. *)
Inductive move :=
| GoTo (page_num : Z)
| Next
| Prev.

Definition apply_move (st : BookManager.t) (m : move) : BookManager.t * bool :=
  match m with
  | GoTo n => BookManager.go_to_page st n
  | Next => BookManager.next_page st
  | Prev => BookManager.prev_page st
  end.

(* A sequence of calls, the return values dropped. *)
Definition run (ms : list move) (st : BookManager.t) : BookManager.t :=
  fold_left (fun st m => fst (apply_move st m)) ms st.

End Navigation.

(* A book of three pages, for concrete evaluations. *)
Definition three_pages `{Externals} (cur : Z) : BookManager.t :=
  {| BookManager.current_book_path := Some (py "books/a.txt");
     BookManager.pages := [py "one"; py "two"; py "three"];
     BookManager.current_page := cur;
     BookManager.total_pages := 3;
     BookManager.bookmarks := ∅ |}.

(* A file system that holds the single file books/a.mobi. *)
Definition one_mobi `{Externals} : FileSystem :=
  {| path_exists := fun p => bool_decide (p = py "books/a.mobi");
     suffix_lower := fun p => if decide (p = py "books/a.mobi") then py ".mobi" else [];
     load_txt := fun _ => [];
     load_epub := fun _ => [];
     load_pdf := fun _ => [];
     sidecar := fun _ => None |}.

(* A font whose glyphs are all 10 pixels wide and 20 pixels high. *)
Definition fixed_font : DisplayManager.Font :=
  fun s => (0, 0, 10 * len s, 20).

(* A display manager with an empty config: font size 20, spacing 1.5. *)
Definition plain_display : @DisplayManager.t exact_floats :=
  {| DisplayManager.config := ∅;
     DisplayManager.width := 800;
     DisplayManager.height := 480;
     DisplayManager.get_font := fun _ => fixed_font |}.

(* A book of four pages open at page 3, without bookmarks. *)
Definition at_page_3 `{Externals} : BookManager.t :=
  {| BookManager.current_book_path := Some (py "books/a.txt");
     BookManager.pages := [py "p0"; py "p1"; py "p2"; py "p3"];
     BookManager.current_page := 3;
     BookManager.total_pages := 4;
     BookManager.bookmarks := ∅ |}.

(* The Home screen with 13 books, the sixth selected on list page 0. *)
Definition shelf_of_13 : @HomeScreen.t exact_floats :=
  {| HomeScreen.books :=
       repeat {| HomeScreen.path := py "books/a.txt";
                 HomeScreen.name := py "a.txt";
                 HomeScreen.size := py "1.0 KB";
                 HomeScreen.modified := ((0, 1%positive) : @float exact_floats);
                 HomeScreen.extension := py "TXT" |} 13;
     HomeScreen.items_per_page := 6;
     HomeScreen.current_page := 0;
     HomeScreen.selected_index := 5;
     HomeScreen.need_refresh := false |}.

(* The Reading screen on the last page of a book of three pages. *)
Definition on_last_page : @ReadingScreen.shared exact_floats :=
  {| ReadingScreen.book_manager := three_pages 2;
     ReadingScreen.config := ∅ |}.

Definition idle_screen : ReadingScreen.t :=
  {| ReadingScreen.selected_index := 0; ReadingScreen.need_refresh := false |}.

(* --------------------------------------------------------------------- *)
(* Event sequences and the invariants of the screens                      *)
(* --------------------------------------------------------------------- *)

Section ScreenInvariants.
Context `{Externals}.

(* The selected book exists and is on the list page shown. *)
Definition selection_shown (self : HomeScreen.t) : Prop :=
  0 <= HomeScreen.current_page self /\
  HomeScreen.current_page self * HomeScreen.items_per_page self
  <= HomeScreen.selected_index self
  < (HomeScreen.current_page self + 1) * HomeScreen.items_per_page self /\
  HomeScreen.selected_index self < len (HomeScreen.books self).

(* The list page shown starts inside the list, or is page 0. *)
Definition page_in_range (self : HomeScreen.t) : Prop :=
  0 <= HomeScreen.current_page self /\
  (HomeScreen.current_page self = 0 \/
   HomeScreen.current_page self * HomeScreen.items_per_page self
   < len (HomeScreen.books self)).

(* The Home screen after a sequence of events. *)
Definition home_events (evs : list string) (self : HomeScreen.t) : HomeScreen.t :=
  fold_left (fun st ev => fst (HomeScreen.handle_event st ev VNone)) evs self.

(* The page stored in the config is the page of the cursor. *)
Definition progress_saved (sh : ReadingScreen.shared) : Prop :=
  ReadingScreen.config sh !! "current_page"%string
  = Some (VInt (BookManager.current_page (ReadingScreen.book_manager sh))).

(* What a handler of the Reading screen may change, from sh to sh'. *)
Definition reading_step_ok (sh sh' : ReadingScreen.shared) : Prop :=
  progress_saved sh' /\
  consistent (ReadingScreen.book_manager sh') /\
  cursor_ok (ReadingScreen.book_manager sh') /\
  BookManager.pages (ReadingScreen.book_manager sh')
  = BookManager.pages (ReadingScreen.book_manager sh) /\
  BookManager.bookmarks (ReadingScreen.book_manager sh')
  = BookManager.bookmarks (ReadingScreen.book_manager sh) /\
  BookManager.current_book_path (ReadingScreen.book_manager sh')
  = BookManager.current_book_path (ReadingScreen.book_manager sh) /\
  (forall k, k <> "current_page"%string ->
             ReadingScreen.config sh' !! k = ReadingScreen.config sh !! k).

(* The Reading screen and the shared objects after a sequence of events. *)
Definition reading_events (evs : list (string * value))
    (st : ReadingScreen.shared * ReadingScreen.t)
  : ReadingScreen.shared * ReadingScreen.t :=
  fold_left (fun st ev =>
               fst (ReadingScreen.handle_event (fst st) (snd st) (fst ev) (snd ev)))
            evs st.

(* The selection of the menu is one of its entries. *)
Definition menu_ok (self : MenuScreen.t) : Prop :=
  0 <= MenuScreen.selected_index self < len MenuScreen.menu_items.

Definition menu_events (bm : BookManager.t) (evs : list (string * value))
    (self : MenuScreen.t) : MenuScreen.t :=
  fold_left (fun st ev => fst (MenuScreen.handle_event bm st (fst ev) (snd ev)))
            evs self.

End ScreenInvariants.

(* A line that is not empty and fits the width, or is one of the words, as
   it is or stripped. *)
Definition fits_or_word (font : DisplayManager.Font) (width : Z)
    (words : list str) (l : str) : Prop :=
  l <> [] /\
  (DisplayManager.bbox_width (font l) <= width \/
   exists w, In w words /\ (l = w \/ l = strip w)).

(* The words of some lines, in order. *)
Definition words_of (lines : list str) : list str :=
  concat (map (split_on SP) lines).

(* The lines of the wrapping loop so far, the one being filled included. *)
Definition pending (st : DisplayManager.wrap) : list str :=
  DisplayManager.w_lines st
  ++ match DisplayManager.w_current_line st with
     | [] => []
     | _ :: _ => [DisplayManager.w_current_line st]
     end.

(* A time stamp. *)
Definition stamp_0 : @float exact_floats := (0, 1%positive).

(* A book of three pages with two bookmarks, one of them stale. *)
Definition with_bookmarks : @BookManager.t exact_floats :=
  {| BookManager.current_book_path := Some (py "books/a.txt");
     BookManager.pages := [py "one"; py "two"; py "three"];
     BookManager.current_page := 0;
     BookManager.total_pages := 3;
     BookManager.bookmarks :=
       <[py "near" := {| page := 2; timestamp := stamp_0 |}]>
         (<[py "far" := {| page := 7; timestamp := stamp_0 |}]> ∅) |}.

(* A file system with the single text file books/b.txt, two paragraphs. *)
Definition one_txt : @FileSystem exact_floats :=
  {| path_exists := fun p => bool_decide (p = py "books/b.txt");
     suffix_lower := fun p => if decide (p = py "books/b.txt") then py ".txt" else [];
     load_txt := fun _ => two_paragraphs "AAAA" "BBBB";
     load_epub := fun _ => [];
     load_pdf := fun _ => [];
     sidecar := fun _ => None |}.

(* The Reading screen on page 0 of three, the page saved in the config. *)
Definition reading_start : @ReadingScreen.shared exact_floats :=
  {| ReadingScreen.book_manager := three_pages 0;
     ReadingScreen.config := {["current_page"%string := VInt 0]} |}.

(* --------------------------------------------------------------------- *)
(* The application: screens reached and effects                           *)
(* --------------------------------------------------------------------- *)

Section Application.
Context `{Externals}.

(* The current screen is one that init_screens and load_book set. *)
Definition home_or_reading (self : EinkReader.t) : Prop :=
  EinkReader.current_screen self = "home"%string \/
  EinkReader.current_screen self = "reading"%string.

(* The current screen answers the event with the same event as its
   command: SHOW_MENU on Home, SHOW_HOME and SHOW_MENU on Reading, SHOW_HOME
   on Menu. *)
Definition echoed (self : EinkReader.t) (ev : string) : Prop :=
  (EinkReader.current_screen self = "home"%string /\ ev = "SHOW_MENU"%string) \/
  (EinkReader.current_screen self = "reading"%string /\
   (ev = "SHOW_HOME"%string \/ ev = "SHOW_MENU"%string)) \/
  (EinkReader.current_screen self = "menu"%string /\ ev = "SHOW_HOME"%string).

(* The events of the four buttons and the commands that follow them. *)
Definition click_event (ev : string) : Prop :=
  In ev ["PREV_PAGE"; "NEXT_PAGE"; "SHOW_HOME"; "SHOW_MENU"; "REFRESH";
         "SAVE_CONFIG"]%string.

(* From self to self' the application wrote the config at most, and shows
   and reads the same book. *)
Definition quiet (self self' : EinkReader.t) : Prop :=
  home_or_reading self' /\
  (exists configs,
     EinkReader.effects self'
     = EinkReader.effects self ++ map EinkReader.SavedConfig configs) /\
  BookManager.current_book_path (ReadingScreen.book_manager (EinkReader.shared self'))
  = BookManager.current_book_path (ReadingScreen.book_manager (EinkReader.shared self)) /\
  BookManager.pages (ReadingScreen.book_manager (EinkReader.shared self'))
  = BookManager.pages (ReadingScreen.book_manager (EinkReader.shared self)).

End Application.

(* A world for concrete evaluations: the file system with books/b.txt, the
   plain display manager whatever the config, no book listed. *)
Definition small_world : @EinkReader.World exact_floats :=
  {| EinkReader.fs := one_txt;
     EinkReader.display_manager := fun _ => plain_display;
     EinkReader.list_books := [];
     EinkReader.path_name := fun p => p |}.

(* The application on the named screen, reading page 0 of three. *)
Definition app_on (screen : string) : @EinkReader.t exact_floats :=
  {| EinkReader.running := true;
     EinkReader.current_screen := screen;
     EinkReader.shared := reading_start;
     EinkReader.home := HomeScreen.init;
     EinkReader.reading := idle_screen;
     EinkReader.menu := MenuScreen.init;
     EinkReader.effects := [] |}.

(* The book books/b.txt as list_books() reports it. *)
Definition book_b : @HomeScreen.book exact_floats :=
  {| HomeScreen.path := py "books/b.txt"; HomeScreen.name := py "b.txt";
     HomeScreen.size := py "9.0 B"; HomeScreen.modified := stamp_0;
     HomeScreen.extension := py "TXT" |}.

(* The application as initialize() leaves it, without a last book, once the
   Home screen holds the list [books/b.txt]. *)
Definition app_fresh : @EinkReader.t exact_floats :=
  {| EinkReader.running := true;
     EinkReader.current_screen := "home";
     EinkReader.shared :=
       {| ReadingScreen.book_manager := BookManager.init;
          ReadingScreen.config := ∅ |};
     EinkReader.home :=
       {| HomeScreen.books := [book_b]; HomeScreen.items_per_page := 6;
          HomeScreen.current_page := 0; HomeScreen.selected_index := 0;
          HomeScreen.need_refresh := true |};
     EinkReader.reading :=
       {| ReadingScreen.selected_index := 0; ReadingScreen.need_refresh := true |};
     EinkReader.menu := MenuScreen.init;
     EinkReader.effects := [] |}.

(* ===================================================================== *)
(* 8. Strings: strip, join, re.split                                      *)
(* ===================================================================== *)

Lemma len_app {A} (l k : list A) : len (l ++ k) = len l + len k.
Proof. unfold len. rewrite length_app. lia. Qed.

Lemma len_nonneg {A} (l : list A) : 0 <= len l.
Proof. unfold len. lia. Qed.

Lemma lstrip_head s c : head (lstrip s) = Some c -> is_space c = false.
Proof.
  induction s as [|d s IH]; simpl; [discriminate|].
  destruct (is_space d) eqn:E; [exact IH|].
  simpl. intros [= <-]. exact E.
Qed.

Lemma lstrip_snoc s c :
  is_space c = false -> lstrip (s ++ [c]) = lstrip s ++ [c].
Proof.
  intros Hc. induction s as [|d s IH]; simpl.
  - now rewrite Hc.
  - destruct (is_space d); [exact IH|reflexivity].
Qed.

Lemma last_rev {A} (l : list A) : last (rev l) = head l.
Proof. destruct l as [|a l]; [reflexivity|]. simpl. apply last_snoc. Qed.

Lemma rstrip_last s c : last (rstrip s) = Some c -> is_space c = false.
Proof. unfold rstrip. rewrite last_rev. apply lstrip_head. Qed.

(* Trimming the right end leaves a clean left end clean. *)
Lemma rstrip_head s c :
  (forall d, head s = Some d -> is_space d = false) ->
  head (rstrip s) = Some c -> is_space c = false.
Proof.
  intros Hs. destruct s as [|d s]; [discriminate|].
  assert (Hd : is_space d = false) by now apply Hs.
  unfold rstrip. simpl rev. rewrite (lstrip_snoc _ _ Hd).
  rewrite rev_app_distr. simpl. intros [= <-]. exact Hd.
Qed.

Lemma strip_trimmed s : trimmed (strip s).
Proof.
  split; intros c.
  - apply rstrip_head. intros d. apply lstrip_head.
  - apply rstrip_last.
Qed.

Lemma nonempty_true s : nonempty s = true <-> s <> [].
Proof. destruct s; simpl; split; congruence. Qed.

Lemma join_cons sep x l :
  l <> [] -> join sep (x :: l) = x ++ sep ++ join sep l.
Proof. destruct l; [congruence|reflexivity]. Qed.

Lemma join_app sep l k :
  l <> [] -> k <> [] -> join sep (l ++ k) = join sep l ++ sep ++ join sep k.
Proof.
  intros Hl Hk. induction l as [|x l IH]; [congruence|].
  destruct l as [|y l].
  - simpl app. now rewrite join_cons.
  - change ((x :: y :: l) ++ k) with (x :: (y :: l) ++ k).
    rewrite join_cons by (simpl; congruence).
    rewrite IH by congruence.
    rewrite (join_cons sep x (y :: l)) by congruence.
    now rewrite <- !app_assoc.
Qed.

(* Joining joined groups is joining their concatenation. *)
Lemma join_concat sep (groups : list (list str)) :
  Forall (fun g => g <> []) groups ->
  join sep (map (join sep) groups) = join sep (concat groups).
Proof.
  induction 1 as [|g gs Hg Hgs IH]; [reflexivity|].
  destruct gs as [|g' gs].
  - simpl. now rewrite app_nil_r.
  - change (map (join sep) (g :: g' :: gs))
      with (join sep g :: map (join sep) (g' :: gs)).
    rewrite join_cons by (simpl; congruence).
    rewrite IH. simpl concat.
    assert (Hne : g' ++ concat gs <> []).
    { inversion Hgs as [|? ? Hg' _]; subst. destruct g'; simpl; congruence. }
    now rewrite (join_app sep g _ Hg Hne).
Qed.

(* The length of a page: its paragraphs and one newline between two. *)
Lemma len_join_nl (g : list str) :
  g <> [] -> len (join [NL] g) = page_chars g + (len g - 1).
Proof.
  induction g as [|p g IH]; [congruence|]. intros _.
  destruct g as [|q g].
  - simpl. unfold len. simpl. lia.
  - rewrite join_cons by congruence. rewrite !len_app, IH by congruence.
    change (page_chars (p :: q :: g)) with (len p + page_chars (q :: g)).
    unfold len. simpl. lia.
Qed.

Lemma page_chars_snoc pg p : page_chars (pg ++ [p]) = page_chars pg + len p.
Proof. induction pg as [|q pg IH]; simpl; [lia|]. rewrite IH. lia. Qed.

(* A separator match consumes at least two characters. *)
Lemma match_ws_nl_shorter s r :
  match_ws_nl s = Some r -> (length r < length s)%nat.
Proof.
  revert r. induction s as [|c s IH]; intros r; simpl; [discriminate|].
  assert (Hstop : (if (c =? NL)%N then Some s else None) = Some r ->
                  (length r < S (length s))%nat).
  { destruct (c =? NL)%N; [|discriminate]. intros [= <-]. lia. }
  destruct (is_space c); [|exact Hstop].
  destruct (match_ws_nl s) as [r'|] eqn:E; [|exact Hstop].
  intros [= <-]. specialize (IH _ eq_refl). lia.
Qed.

Lemma match_blank_shorter s r :
  match_blank s = Some r -> (S (length r) < length s)%nat.
Proof.
  destruct s as [|c s]; simpl; [discriminate|].
  destruct (c =? NL)%N; [|discriminate].
  intros E. apply match_ws_nl_shorter in E. lia.
Qed.

(* The scan never runs out of steps: any bound above the length of the
   text gives the same pieces. *)
Lemma re_split_from_fuel fuel fuel' piece s :
  (length s < fuel)%nat -> (length s < fuel')%nat ->
  re_split_from fuel piece s = re_split_from fuel' piece s.
Proof.
  revert fuel' piece s.
  induction fuel as [|fuel IH]; intros fuel' piece s Hf Hf'; [lia|].
  destruct fuel' as [|fuel']; [lia|]. simpl.
  destruct (match_blank s) as [rest|] eqn:E.
  - apply match_blank_shorter in E. f_equal. apply IH; lia.
  - destruct s as [|c s]; [reflexivity|]. simpl in *. apply IH; lia.
Qed.

Lemma re_split_nil : re_split [] = [[]].
Proof. reflexivity. Qed.

(* ===================================================================== *)
(* 9. BookManager.split_into_pages                                        *)
(* ===================================================================== *)

Section Pagination.
Import BookManager.

(* The loop of split_into_pages computes the greedy pages: the counter
   current_chars is the sum of the lengths of the paragraphs on the page. *)
Lemma loop_greedy B raws st :
  l_current_chars st = page_chars (l_current_page st) ->
  flush (fold_left (loop_body B) raws st)
  = l_pages st
    ++ map (join [NL])
         (greedy B (l_current_page st) (List.filter nonempty (map strip raws))).
Proof.
  revert st. induction raws as [|raw raws IH]; intros st Hst.
  - simpl. unfold flush. destruct (l_current_page st); simpl;
      [now rewrite app_nil_r|reflexivity].
  - simpl fold_left. simpl map. simpl List.filter.
    unfold loop_body at 2.
    destruct (strip raw) as [|c para] eqn:Hp; simpl nonempty; cbv iota.
    + now apply IH.
    + simpl greedy. rewrite <- Hst.
      rewrite (orb_comm (match l_current_page st with [] => true | _ => false end)).
      destruct ((l_current_chars st + len (c :: para) <=? B)
                || match l_current_page st with [] => true | _ => false end).
      * rewrite IH; simpl; [reflexivity|].
        rewrite page_chars_snoc. now rewrite Hst.
      * rewrite IH; simpl; [|lia].
        now rewrite <- app_assoc.
Qed.

Lemma split_into_pages_eq c text B :
  split_into_pages (c :: text) B
  = map (join [NL]) (greedy B [] (paragraphs (c :: text))).
Proof.
  unfold split_into_pages, paragraphs. now rewrite loop_greedy.
Qed.

Lemma paragraphs_trimmed text :
  Forall (fun p => p <> [] /\ trimmed p) (paragraphs text).
Proof.
  unfold paragraphs. apply List.Forall_forall. intros p Hp.
  apply filter_In in Hp as [Hin Hne]. split; [now apply nonempty_true|].
  apply in_map_iff in Hin as [raw [<- _]]. apply strip_trimmed.
Qed.

(* The greedy pages are a partition of the current page followed by the
   paragraphs, into non-empty runs. *)
Lemma greedy_concat B pg paras : concat (greedy B pg paras) = pg ++ paras.
Proof.
  revert pg. induction paras as [|p ps IH]; intros pg; simpl.
  - destruct pg; simpl; now rewrite ?app_nil_r.
  - destruct (_ || _); simpl; rewrite IH; [now rewrite <- app_assoc|reflexivity].
Qed.

Lemma greedy_nonempty B pg paras : Forall (fun g => g <> []) (greedy B pg paras).
Proof.
  revert pg. induction paras as [|p ps IH]; intros pg; simpl.
  - destruct pg; constructor; [congruence|constructor].
  - destruct pg as [|q pg]; simpl; [apply IH|].
    destruct (_ <=? _); [apply IH|]. constructor; [congruence|apply IH].
Qed.

(* A page of several paragraphs holds at most the budget, the joining
   newlines not counted. *)
Lemma greedy_budget B pg paras :
  (pg = [] \/ len pg = 1 \/ page_chars pg <= B) ->
  Forall (fun g => len g = 1 \/ page_chars g <= B) (greedy B pg paras).
Proof.
  revert pg. induction paras as [|p ps IH]; intros pg Hpg; cbn [greedy].
  - destruct pg as [|q pg]; constructor; [|constructor].
    destruct Hpg as [Hpg|Hpg]; [congruence|exact Hpg].
  - destruct pg as [|q pg]; cbn [orb].
    + apply IH. right; left. reflexivity.
    + destruct (Z.leb_spec (page_chars (q :: pg) + len p) B) as [Hle|Hgt].
      * apply IH. right; right. rewrite page_chars_snoc. exact Hle.
      * constructor.
        -- destruct Hpg as [Hpg|Hpg]; [congruence|exact Hpg].
        -- apply IH. right; left. reflexivity.
Qed.

End Pagination.

(** C1: split_into_pages splits the text into its trimmed, non-empty
    paragraphs and accumulates them greedily: a paragraph joins the current
    page exactly when the page is empty or the sum of the lengths of the
    paragraphs on it plus the paragraph's length is at most the budget;
    otherwise the page is closed, its paragraphs joined by one newline, and
    the paragraph starts the next page. (On the empty text the early return
    gives the placeholder page.) "AAAA\n\nBBBB" with budget 5 gives
    ["AAAA", "BBBB"], and "AA\n\nBB" with budget 10 gives ["AA\nBB"]. *)
Theorem split_into_pages_greedy :
  (forall text B,
     BookManager.split_into_pages text B
     = match text with
       | [] => [BookManager.placeholder]
       | _ :: _ => map (join [NL]) (greedy B [] (paragraphs text))
       end) /\
  (forall text, Forall (fun p => p <> [] /\ trimmed p) (paragraphs text)) /\
  BookManager.split_into_pages (two_paragraphs "AAAA" "BBBB") 5
  = [py "AAAA"; py "BBBB"] /\
  BookManager.split_into_pages (two_paragraphs "AA" "BB") 10
  = [py "AA" ++ [NL] ++ py "BB"].
Proof.
  split; [|split; [exact paragraphs_trimmed|split; reflexivity]].
  intros [|c text] B; [reflexivity|apply split_into_pages_eq].
Qed.

(** C2: for a text with at least one non-blank paragraph, the pages are not
    empty, and joining them with newlines gives the trimmed non-empty
    paragraphs of the text joined with newlines: the pages are the joins of
    consecutive non-empty runs of the paragraphs, in order. *)
Theorem pages_reconstruct text B :
  paragraphs text <> [] ->
  BookManager.split_into_pages text B <> [] /\
  join [NL] (BookManager.split_into_pages text B) = join [NL] (paragraphs text) /\
  exists groups,
    Forall (fun g => g <> []) groups /\
    concat groups = paragraphs text /\
    BookManager.split_into_pages text B = map (join [NL]) groups.
Proof.
  intros Hne. destruct text as [|c text]; [now destruct Hne|].
  rewrite split_into_pages_eq.
  pose proof (greedy_concat B [] (paragraphs (c :: text))) as Hc.
  pose proof (greedy_nonempty B [] (paragraphs (c :: text))) as Hn.
  simpl app in Hc. split; [|split].
  - intros Hnil. apply map_eq_nil in Hnil. rewrite Hnil in Hc.
    simpl in Hc. congruence.
  - rewrite join_concat by exact Hn. now rewrite Hc.
  - exists (greedy B [] (paragraphs (c :: text))). auto.
Qed.

Lemma pages_reconstruct_witness :
  paragraphs (two_paragraphs "AAAA" "BBBB") <> [] /\
  BookManager.split_into_pages (two_paragraphs "AAAA" "BBBB") 5 <> [] /\
  join [NL] (BookManager.split_into_pages (two_paragraphs "AAAA" "BBBB") 5)
  = join [NL] (paragraphs (two_paragraphs "AAAA" "BBBB")) /\
  exists groups,
    Forall (fun g => g <> []) groups /\
    concat groups = paragraphs (two_paragraphs "AAAA" "BBBB") /\
    BookManager.split_into_pages (two_paragraphs "AAAA" "BBBB") 5
    = map (join [NL]) groups.
Proof.
  assert (Hne : paragraphs (two_paragraphs "AAAA" "BBBB") <> [])
    by (vm_compute; discriminate).
  split; [exact Hne|].
  exact (pages_reconstruct (two_paragraphs "AAAA" "BBBB") 5 Hne).
Defined.

(** C3 (the code departs from it): the empty text gives the placeholder
    page, but a text of white space only, "   \n\n  ", passes the test
    `not text`, has no paragraph left after trimming, and gives no page at
    all. *)
Theorem whitespace_only_gives_no_page B :
  BookManager.split_into_pages [] B = [BookManager.placeholder] /\
  BookManager.split_into_pages (two_paragraphs "   " "  ") B = [].
Proof. split; reflexivity. Qed.

(* The same for every text without a paragraph, the empty one apart. *)
Lemma blank_text_gives_no_page text B :
  text <> [] -> paragraphs text = [] -> BookManager.split_into_pages text B = [].
Proof.
  intros Hne Hp. destruct text as [|c text]; [congruence|].
  rewrite split_into_pages_eq, Hp. reflexivity.
Qed.

(** C4, counterexample: "AA\n\nBB" with budget 4 is the single page
    "AA\nBB": two paragraphs of 2 + 2 <= 4 characters, 5 characters long
    with the joining newline. *)
Lemma within_budget_counterexample :
  0 < 4 /\
  BookManager.split_into_pages (two_paragraphs "AA" "BB") 4
  = [py "AA" ++ [NL] ++ py "BB"] /\
  ~ within_budget_as_stated (two_paragraphs "AA" "BB") 4.
Proof.
  split; [lia|split; [reflexivity|]].
  intros Hall. apply Forall_inv in Hall. destruct Hall as [Hle|[Hin _]].
  - vm_compute in Hle. now apply Hle.
  - vm_compute in Hin. destruct Hin as [E|[E|[]]]; discriminate E.
Qed.

(** C4, amended: for a non-empty text every page is the newline-join of a
    non-empty run of consecutive paragraphs which is a single paragraph
    (kept whole, whatever its length) or whose paragraph lengths sum to at
    most the budget; the length of a page is that sum plus one per joining
    newline. 2000 times "X" with budget 1500 is one page of 2000
    characters. *)
Theorem pages_within_budget text B :
  text <> [] ->
  (exists groups,
     concat groups = paragraphs text /\
     BookManager.split_into_pages text B = map (join [NL]) groups /\
     Forall (fun g => g <> [] /\
                      len (join [NL] g) = page_chars g + (len g - 1) /\
                      (len g = 1 \/ page_chars g <= B)) groups) /\
  BookManager.split_into_pages (repeat 88%N 2000) 1500 = [repeat 88%N 2000].
Proof.
  intros Hne. split; [|vm_compute; reflexivity].
  destruct text as [|c text]; [congruence|].
  exists (greedy B [] (paragraphs (c :: text))).
  split; [apply greedy_concat|split; [apply split_into_pages_eq|]].
  pose proof (greedy_nonempty B [] (paragraphs (c :: text))) as Hn.
  pose proof (greedy_budget B [] (paragraphs (c :: text)) (or_introl eq_refl)) as Hb.
  rewrite List.Forall_forall in *. intros g Hg.
  split; [now apply Hn|split; [apply len_join_nl; now apply Hn|now apply Hb]].
Qed.

Lemma pages_within_budget_witness :
  two_paragraphs "AA" "BB" <> [] /\
  exists groups,
    concat groups = paragraphs (two_paragraphs "AA" "BB") /\
    BookManager.split_into_pages (two_paragraphs "AA" "BB") 4
    = map (join [NL]) groups /\
    Forall (fun g => g <> [] /\
                     len (join [NL] g) = page_chars g + (len g - 1) /\
                     (len g = 1 \/ page_chars g <= 4)) groups.
Proof.
  assert (Hne : two_paragraphs "AA" "BB" <> []) by discriminate.
  split; [exact Hne|].
  exact (proj1 (pages_within_budget (two_paragraphs "AA" "BB") 4 Hne)).
Defined.

(* ===================================================================== *)
(* 10. BookManager: the page cursor                                       *)
(* ===================================================================== *)

Section Cursor.
Context `{Externals}.
Import BookManager.

Lemma go_to_page_spec st n :
  go_to_page st n
  = if (0 <=? n) && (n <? len (pages st))
    then (set_current_page st n, true) else (st, false).
Proof. reflexivity. Qed.

(* A successful move puts the cursor on the page asked for. *)
Lemma go_to_page_true st n st' :
  go_to_page st n = (st', true) -> current_page st' = n.
Proof.
  rewrite go_to_page_spec.
  destruct ((0 <=? n) && (n <? len (pages st))); [|discriminate].
  now intros [= <-].
Qed.

(* A call of go_to_page keeps the invariant, and changes nothing when it
   returns False. *)
Lemma go_to_page_keeps st n :
  consistent st -> cursor_ok st ->
  consistent (fst (go_to_page st n)) /\
  cursor_ok (fst (go_to_page st n)) /\
  total_pages (fst (go_to_page st n)) = total_pages st /\
  (snd (go_to_page st n) = false -> fst (go_to_page st n) = st) /\
  (snd (go_to_page st n) = true -> current_page (fst (go_to_page st n)) = n).
Proof.
  intros Hc Hok. rewrite go_to_page_spec.
  destruct ((0 <=? n) && (n <? len (pages st))) eqn:E; simpl.
  - apply andb_true_iff in E as [E1 E2].
    apply Z.leb_le in E1. apply Z.ltb_lt in E2.
    unfold consistent, cursor_ok in *. simpl.
    repeat split; try congruence; lia.
  - repeat split; try apply Hok; try exact Hc; congruence.
Qed.

Lemma apply_move_keeps st m :
  consistent st -> cursor_ok st ->
  consistent (fst (apply_move st m)) /\
  cursor_ok (fst (apply_move st m)) /\
  total_pages (fst (apply_move st m)) = total_pages st /\
  (snd (apply_move st m) = false -> fst (apply_move st m) = st).
Proof.
  intros Hc Hok.
  destruct m as [n| |]; simpl; unfold next_page, prev_page;
    match goal with
    | |- context [go_to_page st ?k] =>
        destruct (go_to_page_keeps st k Hc Hok) as (?&?&?&?&?)
    end; auto.
Qed.

Lemma run_keeps ms st :
  consistent st -> cursor_ok st ->
  consistent (run ms st) /\ cursor_ok (run ms st) /\
  total_pages (run ms st) = total_pages st.
Proof.
  revert st. induction ms as [|m ms IH]; intros st Hc Hok; [auto|].
  destruct (apply_move_keeps st m Hc Hok) as (Hc'&Hok'&Ht&_).
  change (run (m :: ms) st) with (run ms (fst (apply_move st m))).
  destruct (IH _ Hc' Hok') as (?&?&?).
  split; [assumption|split; [assumption|congruence]].
Qed.

(* next_page, k times: the cursor advances and stops at the last page. *)
Lemma run_next k st :
  consistent st -> 0 <= current_page st < total_pages st ->
  current_page (run (repeat Next k) st)
  = Z.min (current_page st + Z.of_nat k) (total_pages st - 1).
Proof.
  revert st. induction k as [|k IH]; intros st Hc Hcp.
  - simpl. lia.
  - change (run (repeat Next (S k)) st)
      with (run (repeat Next k) (fst (next_page st))).
    unfold next_page. rewrite go_to_page_spec.
    unfold consistent in Hc.
    destruct ((0 <=? current_page st + 1)
              && (current_page st + 1 <? len (pages st))) eqn:E; simpl fst.
    + apply andb_true_iff in E as [_ E]. apply Z.ltb_lt in E.
      rewrite IH; unfold consistent; simpl; lia.
    + apply andb_false_iff in E as [E|E];
        [apply Z.leb_gt in E|apply Z.ltb_ge in E]; [lia|].
      rewrite IH; unfold consistent; lia.
Qed.

(* prev_page, k times: the cursor goes back and stops at page 0. *)
Lemma run_prev k st :
  consistent st -> 0 <= current_page st < total_pages st ->
  current_page (run (repeat Prev k) st)
  = Z.max 0 (current_page st - Z.of_nat k).
Proof.
  revert st. induction k as [|k IH]; intros st Hc Hcp.
  - simpl. lia.
  - change (run (repeat Prev (S k)) st)
      with (run (repeat Prev k) (fst (prev_page st))).
    unfold prev_page. rewrite go_to_page_spec.
    unfold consistent in Hc.
    destruct ((0 <=? current_page st - 1)
              && (current_page st - 1 <? len (pages st))) eqn:E; simpl fst.
    + apply andb_true_iff in E as [E _]. apply Z.leb_le in E.
      rewrite IH; unfold consistent; simpl; lia.
    + apply andb_false_iff in E as [E|E];
        [apply Z.leb_gt in E|apply Z.ltb_ge in E]; [|lia].
      rewrite IH; unfold consistent; lia.
Qed.

(* The states the class reaches satisfy both: the initial one, and the
   result of load_book from any state that does. *)
Lemma init_consistent : consistent init /\ cursor_ok init.
Proof. unfold consistent, cursor_ok; simpl. repeat split; lia. Qed.

Lemma load_book_keeps fs st p :
  consistent st -> cursor_ok st ->
  consistent (fst (load_book fs st p)) /\ cursor_ok (fst (load_book fs st p)).
Proof.
  intros Hc Hok. unfold load_book.
  destruct (path_exists fs p); cbn [negb]; [|auto].
  match goal with
  | |- context [match ?x with Some _ => _ | None => _ end] =>
      destruct x as [content|]
  end.
  - unfold load_bookmarks.
    pose proof (len_nonneg (split_into_pages content 1500)).
    destruct (sidecar fs p); unfold consistent, cursor_ok; cbn [fst pages
      total_pages current_page]; (split; [reflexivity|lia]).
  - unfold consistent, cursor_ok in *. cbn [fst pages total_pages current_page].
    split; [exact Hc|lia].
Qed.

End Cursor.

(** C5: the cursor invariant (0 <= current_page < total_pages when
    total_pages > 0, current_page = 0 when total_pages = 0) is kept by
    go_to_page, next_page and prev_page, from every state in which
    total_pages is len(pages) as load_book sets it: a rejected move returns
    False and leaves the state as it was; next_page repeated from page 0
    stops at total_pages - 1 and prev_page repeated stops at 0. *)
Theorem navigation_keeps_cursor `{Externals} (st : BookManager.t) :
  consistent st -> cursor_ok st ->
  (forall m,
     cursor_ok (fst (apply_move st m)) /\
     consistent (fst (apply_move st m)) /\
     (snd (apply_move st m) = false -> fst (apply_move st m) = st)) /\
  (forall ms, cursor_ok (run ms st)) /\
  (forall k,
     0 < BookManager.total_pages st -> BookManager.current_page st = 0 ->
     BookManager.current_page (run (repeat Next k) st)
     = Z.min (Z.of_nat k) (BookManager.total_pages st - 1) /\
     BookManager.current_page (run (repeat Next k) st)
     <= BookManager.total_pages st - 1) /\
  (forall k,
     0 <= BookManager.current_page (run (repeat Prev k) st) /\
     (0 < BookManager.total_pages st ->
      BookManager.current_page (run (repeat Prev k) st)
      = Z.max 0 (BookManager.current_page st - Z.of_nat k))).
Proof.
  intros Hc Hok. split; [|split; [|split]].
  - intros m. destruct (apply_move_keeps st m Hc Hok) as (?&?&?&?). auto.
  - intros ms. now destruct (run_keeps ms st Hc Hok) as (?&?&?).
  - intros k Hpos H0. rewrite run_next by (auto; lia). rewrite H0. lia.
  - intros k. destruct (run_keeps (repeat Prev k) st Hc Hok) as (_&[Hp Hz]&Ht).
    split.
    + rewrite Ht in Hp, Hz.
      destruct (Z.eq_dec (BookManager.total_pages st) 0) as [E|E];
        [rewrite Hz by exact E; lia|].
      pose proof (len_nonneg (BookManager.pages st)) as Hl.
      unfold consistent in Hc. lia.
    + intros Hpos. apply run_prev; [exact Hc|]. now apply Hok.
Qed.

Lemma navigation_keeps_cursor_witness :
  consistent (@three_pages exact_floats 0) /\
  cursor_ok (@three_pages exact_floats 0) /\
  BookManager.current_page
    (run (repeat Next 5) (@three_pages exact_floats 0)) <= 3 - 1.
Proof.
  assert (Hc : consistent (@three_pages exact_floats 0)) by reflexivity.
  assert (Hok : cursor_ok (@three_pages exact_floats 0))
    by (unfold cursor_ok; simpl; lia).
  split; [exact Hc|split; [exact Hok|]].
  apply (proj1 (proj2 (proj2 (navigation_keeps_cursor _ Hc Hok))) 5%nat);
    [simpl; lia|reflexivity].
Defined.

(* ===================================================================== *)
(* 11. BookManager.load_book and add_bookmark                             *)
(* ===================================================================== *)

(** C10: for an existing path whose lower-cased suffix is none of .txt,
    .epub, .pdf, load_book returns False after it has set
    current_book_path to the path and current_page to 0; pages, total_pages
    and bookmarks are those of the previous book. The state is therefore
    changed whenever the path or the page was a different one. *)
Theorem load_book_unsupported `{Externals} (fs : FileSystem)
    (self : BookManager.t) (book_path : str) :
  path_exists fs book_path = true ->
  suffix_lower fs book_path <> py ".txt" ->
  suffix_lower fs book_path <> py ".epub" ->
  suffix_lower fs book_path <> py ".pdf" ->
  BookManager.load_book fs self book_path
  = ({| BookManager.current_book_path := Some book_path;
        BookManager.pages := BookManager.pages self;
        BookManager.current_page := 0;
        BookManager.total_pages := BookManager.total_pages self;
        BookManager.bookmarks := BookManager.bookmarks self |}, false) /\
  (BookManager.current_book_path self <> Some book_path \/
   BookManager.current_page self <> 0 ->
   fst (BookManager.load_book fs self book_path) <> self).
Proof.
  intros Hex Htxt Hepub Hpdf.
  assert (E : BookManager.load_book fs self book_path
              = ({| BookManager.current_book_path := Some book_path;
                    BookManager.pages := BookManager.pages self;
                    BookManager.current_page := 0;
                    BookManager.total_pages := BookManager.total_pages self;
                    BookManager.bookmarks := BookManager.bookmarks self |}, false)).
  { unfold BookManager.load_book. rewrite Hex. cbn [negb].
    rewrite !decide_False by assumption. reflexivity. }
  split; [exact E|].
  rewrite E. cbn [fst]. intros [Hp|Hp] Heq; apply Hp; rewrite <- Heq; reflexivity.
Qed.

Lemma load_book_unsupported_witness :
  path_exists (@one_mobi exact_floats) (py "books/a.mobi") = true /\
  @BookManager.load_book exact_floats one_mobi (three_pages 2) (py "books/a.mobi")
  = ({| BookManager.current_book_path := Some (py "books/a.mobi");
        BookManager.pages := [py "one"; py "two"; py "three"];
        BookManager.current_page := 0;
        BookManager.total_pages := 3;
        BookManager.bookmarks := ∅ |}, false) /\
  fst (@BookManager.load_book exact_floats one_mobi (three_pages 2)
         (py "books/a.mobi")) <> three_pages 2.
Proof.
  destruct (@load_book_unsupported exact_floats one_mobi (three_pages 2)
              (py "books/a.mobi")) as [E D];
    [reflexivity|vm_compute; discriminate..|].
  split; [reflexivity|]. split; [exact E|]. apply D. right. simpl. lia.
Defined.

(** C8 (the code departs from it): with a book loaded, at page 3 and with
    no bookmark yet, add_bookmark(None) stores nothing and returns nothing:
    building the dict to store looks up the global name `time`, which the
    module never imports, and NameError is raised. *)
Theorem add_bookmark_raises `{Externals} (now : float) :
  BookManager.add_bookmark at_page_3 None now
  = (at_page_3, Raise (NameError "time")).
Proof. reflexivity. Qed.

(* The same from every state with a book loaded, whatever the name. *)
Lemma add_bookmark_loaded `{Externals} self p name now :
  BookManager.current_book_path self = Some p ->
  BookManager.add_bookmark self name now = (self, Raise (NameError "time")).
Proof. intros Hp. unfold BookManager.add_bookmark. now rewrite Hp. Qed.

(* Without a book the guard returns False first. *)
Lemma add_bookmark_no_book `{Externals} self name now :
  BookManager.current_book_path self = None ->
  BookManager.add_bookmark self name now = (self, Return false).
Proof. intros Hp. unfold BookManager.add_bookmark. now rewrite Hp. Qed.

(* ===================================================================== *)
(* 12. ui/screens.py                                                      *)
(* ===================================================================== *)

Section Reading.
Context `{Externals}.
Import ReadingScreen.

Lemma next_page_last (bm : BookManager.t) :
  BookManager.current_page bm = len (BookManager.pages bm) - 1 ->
  BookManager.next_page bm = (bm, false).
Proof.
  intros E. unfold BookManager.next_page, BookManager.go_to_page.
  rewrite E. replace (len (BookManager.pages bm) - 1 + 1 <? len (BookManager.pages bm))
    with false by (symmetry; apply Z.ltb_ge; lia).
  now rewrite andb_false_r.
Qed.

Lemma prev_page_first (bm : BookManager.t) :
  BookManager.current_page bm = 0 ->
  BookManager.prev_page bm = (bm, false).
Proof.
  intros E. unfold BookManager.prev_page, BookManager.go_to_page.
  rewrite E. reflexivity.
Qed.

End Reading.

(** C6: on NEXT_PAGE (PREV_PAGE), when the move of the book cursor
    succeeds the handler stores the new page under "current_page" in the
    config, sets need_refresh and returns SAVE_CONFIG; at the last (first)
    page the move is rejected and the handler changes nothing and returns
    None. *)
Theorem reading_page_events `{Externals} (sh : ReadingScreen.shared)
    (self : ReadingScreen.t) (event_data : value) :
  (forall bm,
     BookManager.next_page (ReadingScreen.book_manager sh) = (bm, true) ->
     BookManager.current_page bm
     = BookManager.current_page (ReadingScreen.book_manager sh) + 1 /\
     ReadingScreen.handle_event sh self "NEXT_PAGE" event_data
     = ({| ReadingScreen.book_manager := bm;
           ReadingScreen.config :=
             <["current_page"%string := VInt (BookManager.current_page bm)]>
               (ReadingScreen.config sh) |},
        {| ReadingScreen.selected_index := ReadingScreen.selected_index self;
           ReadingScreen.need_refresh := true |},
        Some ("SAVE_CONFIG"%string, PNone))) /\
  (forall bm,
     BookManager.prev_page (ReadingScreen.book_manager sh) = (bm, true) ->
     BookManager.current_page bm
     = BookManager.current_page (ReadingScreen.book_manager sh) - 1 /\
     ReadingScreen.handle_event sh self "PREV_PAGE" event_data
     = ({| ReadingScreen.book_manager := bm;
           ReadingScreen.config :=
             <["current_page"%string := VInt (BookManager.current_page bm)]>
               (ReadingScreen.config sh) |},
        {| ReadingScreen.selected_index := ReadingScreen.selected_index self;
           ReadingScreen.need_refresh := true |},
        Some ("SAVE_CONFIG"%string, PNone))) /\
  (BookManager.current_page (ReadingScreen.book_manager sh)
   = len (BookManager.pages (ReadingScreen.book_manager sh)) - 1 ->
   ReadingScreen.handle_event sh self "NEXT_PAGE" event_data = (sh, self, None)) /\
  (BookManager.current_page (ReadingScreen.book_manager sh) = 0 ->
   ReadingScreen.handle_event sh self "PREV_PAGE" event_data = (sh, self, None)).
Proof.
  split; [|split; [|split]].
  - intros bm Hn. split.
    + unfold BookManager.next_page in Hn.
      exact (go_to_page_true _ _ _ Hn).
    + unfold ReadingScreen.handle_event. cbn [String.eqb Ascii.eqb Bool.eqb].
      rewrite Hn. reflexivity.
  - intros bm Hn. split.
    + unfold BookManager.prev_page in Hn.
      exact (go_to_page_true _ _ _ Hn).
    + unfold ReadingScreen.handle_event. cbn [String.eqb Ascii.eqb Bool.eqb].
      rewrite Hn. reflexivity.
  - intros E. unfold ReadingScreen.handle_event. cbn [String.eqb Ascii.eqb Bool.eqb].
    rewrite (next_page_last _ E). reflexivity.
  - intros E. unfold ReadingScreen.handle_event. cbn [String.eqb Ascii.eqb Bool.eqb].
    rewrite (prev_page_first _ E). reflexivity.
Qed.

Lemma reading_page_events_witness :
  ReadingScreen.handle_event on_last_page idle_screen "NEXT_PAGE" VNone
  = (on_last_page, idle_screen, None) /\
  ReadingScreen.handle_event on_last_page idle_screen "PREV_PAGE" VNone
  = ({| ReadingScreen.book_manager := three_pages 1;
        ReadingScreen.config := {["current_page"%string := VInt 1]} |},
     {| ReadingScreen.selected_index := 0; ReadingScreen.need_refresh := true |},
     Some ("SAVE_CONFIG"%string, PNone)).
Proof.
  pose proof (@reading_page_events exact_floats on_last_page idle_screen VNone)
    as (_ & Hprev & Hlast & _).
  split.
  - apply Hlast. reflexivity.
  - destruct (Hprev (@three_pages exact_floats 1) eq_refl) as [_ E]. exact E.
Defined.

Section Home.
Context `{Externals}.
Import HomeScreen.

Lemma down_event_eq self event_data :
  handle_event self "DOWN" event_data
  = if selected_index self <? len (books self) - 1 then
      (update self
         (if (current_page self + 1) * items_per_page self <=? selected_index self + 1
          then current_page self + 1 else current_page self)
         (selected_index self + 1),
       Return (Some ("REFRESH"%string, PNone)))
    else (self, Return None).
Proof. reflexivity. Qed.

End Home.

(** C7: on the Home screen with 6 items per page, DOWN moves the selection
    one down when it is above the last book, and when the new selection is
    at or past (current_page + 1) * 6 the list page advances by one; at the
    last book nothing changes. With 13 books, moving the selection from 5
    to 6 takes current_page from 0 to 1. *)
Theorem home_down_flips_page `{Externals} (self : HomeScreen.t) (event_data : value) :
  HomeScreen.items_per_page self = 6 ->
  (HomeScreen.selected_index self < len (HomeScreen.books self) - 1 ->
   HomeScreen.handle_event self "DOWN" event_data
   = ({| HomeScreen.books := HomeScreen.books self;
         HomeScreen.items_per_page := 6;
         HomeScreen.current_page :=
           if (HomeScreen.current_page self + 1) * 6
              <=? HomeScreen.selected_index self + 1
           then HomeScreen.current_page self + 1
           else HomeScreen.current_page self;
         HomeScreen.selected_index := HomeScreen.selected_index self + 1;
         HomeScreen.need_refresh := true |},
      Return (Some ("REFRESH"%string, PNone)))) /\
  (len (HomeScreen.books self) - 1 <= HomeScreen.selected_index self ->
   HomeScreen.handle_event self "DOWN" event_data = (self, Return None)) /\
  (len (HomeScreen.books self) = 13 ->
   HomeScreen.selected_index self = 5 ->
   HomeScreen.current_page self = 0 ->
   HomeScreen.selected_index (fst (HomeScreen.handle_event self "DOWN" event_data)) = 6 /\
   HomeScreen.current_page (fst (HomeScreen.handle_event self "DOWN" event_data)) = 1).
Proof.
  intros Hipp. rewrite down_event_eq, Hipp. split; [|split].
  - intros Hlt. apply Z.ltb_lt in Hlt. rewrite Hlt.
    unfold HomeScreen.update. now rewrite Hipp.
  - intros Hge. apply Z.ltb_ge in Hge. now rewrite Hge.
  - intros Hlen Hsel Hpage. rewrite Hlen, Hsel, Hpage. split; reflexivity.
Qed.

Lemma home_down_flips_page_witness :
  HomeScreen.items_per_page shelf_of_13 = 6 /\
  HomeScreen.selected_index (fst (HomeScreen.handle_event shelf_of_13 "DOWN" VNone)) = 6 /\
  HomeScreen.current_page (fst (HomeScreen.handle_event shelf_of_13 "DOWN" VNone)) = 1.
Proof.
  split; [reflexivity|].
  apply (proj2 (proj2 (@home_down_flips_page exact_floats shelf_of_13 VNone eq_refl)));
    reflexivity.
Defined.

(* ===================================================================== *)
(* 13. DisplayManager.draw_text_box                                       *)
(* ===================================================================== *)

Section Layout.
Context `{Externals}.
Import DisplayManager.

(* Lines that fit are left alone. *)
Lemma truncate_fits max_lines lines :
  len lines <= max_lines -> truncate max_lines lines = Return lines.
Proof.
  intros Hle. unfold truncate.
  now replace (max_lines <? len lines) with false by (symmetry; apply Z.ltb_ge; lia).
Qed.

(* With room for at least one line, too many lines are cut to max_lines,
   and the last one kept loses its final three characters to "...". *)
Lemma truncate_cuts max_lines lines :
  0 < max_lines -> max_lines < len lines ->
  exists l,
    lines !! (Z.to_nat max_lines - 1)%nat = Some l /\
    truncate max_lines lines
    = Return (take (Z.to_nat max_lines - 1) lines ++ [slice_to (-3) l ++ ellipsis]) /\
    len (take (Z.to_nat max_lines - 1) lines ++ [slice_to (-3) l ++ ellipsis])
    = max_lines.
Proof.
  intros Hpos Hlt. unfold len in Hlt.
  destruct (Z.to_nat max_lines) as [|m] eqn:Em; [lia|].
  assert (Hm : (m < length lines)%nat) by lia.
  destruct (lookup_lt_is_Some_2 lines m Hm) as [l Hl].
  exists l. replace (S m - 1)%nat with m by lia.
  split; [exact Hl|]. split.
  - unfold truncate.
    replace (max_lines <? len lines) with true
      by (symmetry; apply Z.ltb_lt; unfold len; lia).
    assert (Hcut : slice_to max_lines lines = take m lines ++ [l]).
    { unfold slice_to.
      replace (max_lines <? 0) with false by (symmetry; apply Z.ltb_ge; lia).
      now rewrite Em, (take_S_r _ _ _ Hl). }
    rewrite !Hcut.
    assert (Hlen : length (take m lines ++ [l]) = S m)
      by (rewrite length_app, length_take; simpl; lia).
    replace (max_lines <=? len (take m lines ++ [l])) with true
      by (symmetry; apply Z.leb_le; unfold len; rewrite Hlen; lia).
    unfold last_item. rewrite last_snoc. cbn [bind].
    rewrite Hlen. replace (S m - 1)%nat with m by lia.
    rewrite insert_app_r_alt by (rewrite length_take; lia).
    rewrite length_take. replace (m - m `min` length lines)%nat with 0%nat by lia.
    reflexivity.
  - rewrite len_app. unfold len at 1. rewrite length_take.
    unfold len. simpl length. lia.
Qed.

(* Without room for a single line, cutting empties the list and the
   assignment to lines[-1] fails. *)
Lemma truncate_no_room lines :
  lines <> [] -> truncate 0 lines = Raise IndexError.
Proof.
  intros Hne. destruct lines as [|l lines]; [congruence|]. reflexivity.
Qed.

(* The count returned is the number of lines drawn. *)
Lemma draw_text_box_count self text x y width height fs ls align valign img n :
  draw_text_box self text x y width height fs ls align valign = Return (img, n) ->
  n = len img.
Proof.
  unfold draw_text_box.
  destruct (int_times _ _) as [line_height|]; [|discriminate]. cbn [bind].
  destruct (floordiv _ _) as [max_lines|]; [|discriminate]. cbn [bind].
  destruct (truncate _ _) as [lines|]; [|discriminate]. cbn [bind].
  intros [= <- <-]. unfold draw_lines, len. now rewrite length_imap.
Qed.

(* With room for at least one line the call returns, and the count is the
   smaller of the number of wrapped lines and max_lines. *)
Lemma draw_text_box_room self text x y width height fs ls align valign line_height :
  let font := get_font self (font_size_or_default self fs) in
  int_times (bbox_height (font sample)) (line_spacing_or_default self ls)
  = Return line_height ->
  0 < line_height -> line_height <= height ->
  exists img,
    draw_text_box self text x y width height fs ls align valign
    = Return (img, Z.min (len (wrap_lines font width text)) (height / line_height)) /\
    len img = Z.min (len (wrap_lines font width text)) (height / line_height).
Proof.
  intros font Hlh Hpos Hroom. unfold draw_text_box. fold font.
  rewrite Hlh. cbn [bind]. unfold floordiv.
  destruct (Z.eqb_spec line_height 0) as [E|_]; [lia|]. cbn [bind].
  assert (Hmax : 0 < height / line_height) by (apply Z.div_str_pos; lia).
  set (lines := wrap_lines font width text).
  set (max_lines := height / line_height) in *.
  destruct (Z_lt_le_dec max_lines (len lines)) as [Hlt|Hle].
  - destruct (truncate_cuts max_lines lines Hmax Hlt) as (l & _ & -> & Hlen).
    cbn [bind]. rewrite Hlen. eexists. split.
    + f_equal. f_equal. lia.
    + unfold draw_lines, len at 1. rewrite length_imap. fold (len
        (take (Z.to_nat max_lines - 1) lines ++ [slice_to (-3) l ++ ellipsis])).
      lia.
  - rewrite (truncate_fits max_lines lines Hle). cbn [bind]. eexists. split.
    + f_equal. f_equal. lia.
    + unfold draw_lines, len at 1. rewrite length_imap. fold (len lines). lia.
Qed.

(* max_lines is the floor of height / line_height. *)
Lemma floordiv_floor a b q :
  floordiv a b = Return q -> 0 < b -> b * q <= a < b * (q + 1).
Proof.
  unfold floordiv. destruct (Z.eqb_spec b 0); [discriminate|].
  intros [= <-] Hb. pose proof (Z.mul_div_le a b Hb).
  pose proof (Z.mul_succ_div_gt a b Hb). lia.
Qed.

End Layout.

(** C9 (the code departs from it): in a box lower than one line the
    maximum is 0 lines; the wrapped lines exceed it, the cut leaves no
    line, and the assignment to the last line raises IndexError instead of
    returning 0 lines. Here "hello" in a box 100 wide and 10 high, with
    lines 30 high. In a box 70 high the same code keeps 2 of 3 lines and
    ends the second with "...". *)
Theorem draw_text_box_no_room :
  DisplayManager.wrap_lines fixed_font 100 (py "hello") = [py "hello"] /\
  floordiv 10 30 = Return 0 /\
  DisplayManager.draw_text_box plain_display (py "hello") 0 0 100 10
    None None "left" "top"
  = Raise IndexError /\
  DisplayManager.draw_text_box plain_display (py "hello world foo bar baz")
    0 0 100 70 None None "left" "top"
  = Return ([(0, 0, py "hello"); (0, 30, py "world ...")], 2).
Proof. repeat split; vm_compute; reflexivity. Qed.

(* ===================================================================== *)
(* 14. BookManager: pages, bookmarks and loading                          *)
(* ===================================================================== *)

Section Pages.
Context `{Externals}.
Import BookManager.

Lemma get_page_in_range st n :
  is_Some (get_page st n) <-> 0 <= n < len (pages st).
Proof.
  unfold get_page.
  destruct ((0 <=? n) && (n <? len (pages st))) eqn:E.
  - apply andb_true_iff in E as [E1 E2].
    apply Z.leb_le in E1. apply Z.ltb_lt in E2. split; [lia|]. intros _.
    apply lookup_lt_is_Some_2. unfold len in E2. lia.
  - split; [intros [x Hx]; discriminate|]. intros [H1 H2].
    apply andb_false_iff in E as [E|E];
      [apply Z.leb_gt in E|apply Z.ltb_ge in E]; lia.
Qed.

Lemma go_to_page_true_iff st n :
  snd (go_to_page st n) = true <-> 0 <= n < len (pages st).
Proof.
  rewrite go_to_page_spec.
  destruct ((0 <=? n) && (n <? len (pages st))) eqn:E; simpl.
  - apply andb_true_iff in E as [E1 E2].
    apply Z.leb_le in E1. apply Z.ltb_lt in E2. split; [lia|reflexivity].
  - split; [discriminate|]. intros [H1 H2].
    apply andb_false_iff in E as [E|E];
      [apply Z.leb_gt in E|apply Z.ltb_ge in E]; lia.
Qed.

End Pages.

(** X1: go_to_page accepts exactly the page numbers for which get_page
    returns a page (0 <= n < len(pages)), and after an accepted move
    get_current_page returns that page; a number out of range has no page
    and is rejected. *)
Theorem go_to_page_get_page `{Externals} (st : BookManager.t) (n : Z) :
  (is_Some (BookManager.get_page st n) <-> 0 <= n < len (BookManager.pages st)) /\
  (snd (BookManager.go_to_page st n) = true <-> is_Some (BookManager.get_page st n)) /\
  (snd (BookManager.go_to_page st n) = true ->
   BookManager.get_current_page (fst (BookManager.go_to_page st n))
   = BookManager.get_page st n).
Proof.
  split; [apply get_page_in_range|split].
  - rewrite go_to_page_true_iff. symmetry. apply get_page_in_range.
  - rewrite go_to_page_spec.
    destruct ((0 <=? n) && (n <? len (BookManager.pages st))) eqn:E;
      simpl; [|discriminate].
    intros _. unfold BookManager.get_current_page, BookManager.get_page.
    simpl. now rewrite E.
Qed.

Lemma go_to_page_get_page_witness :
  BookManager.get_current_page
    (fst (BookManager.go_to_page (@three_pages exact_floats 0) 2))
  = Some (py "three").
Proof.
  rewrite (proj2 (proj2 (go_to_page_get_page (@three_pages exact_floats 0) 2)));
    reflexivity.
Defined.

(** X2: goto_bookmark returns True exactly when the name is a bookmark and
    its page is a page of the book; the cursor is then on that page. For an
    unknown name or a stale bookmark it returns False and changes nothing.
    In both cases the cursor invariant is kept. *)
Theorem goto_bookmark_spec `{Externals} (st : BookManager.t) (name : str) :
  consistent st -> cursor_ok st ->
  cursor_ok (fst (BookManager.goto_bookmark st name)) /\
  consistent (fst (BookManager.goto_bookmark st name)) /\
  (snd (BookManager.goto_bookmark st name) = true <->
   exists b, BookManager.bookmarks st !! name = Some b /\
             0 <= page b < len (BookManager.pages st)) /\
  (snd (BookManager.goto_bookmark st name) = false ->
   fst (BookManager.goto_bookmark st name) = st) /\
  (forall b, BookManager.bookmarks st !! name = Some b ->
             snd (BookManager.goto_bookmark st name) = true ->
             BookManager.current_page (fst (BookManager.goto_bookmark st name))
             = page b).
Proof.
  intros Hc Hok. unfold BookManager.goto_bookmark.
  destruct (BookManager.bookmarks st !! name) as [b|] eqn:Hb.
  - destruct (go_to_page_keeps st (page b) Hc Hok) as (H1&H2&_&H4&H5).
    split; [exact H2|]. split; [exact H1|]. split; [|split].
    + split.
      * intros Ht. exists b. split; [reflexivity|].
        now apply go_to_page_true_iff.
      * intros (b'&E&Hr). injection E as <-. now apply go_to_page_true_iff.
    + exact H4.
    + intros b' E. injection E as <-. exact H5.
  - cbn [fst snd]. split; [exact Hok|]. split; [exact Hc|]. split; [|split].
    + split; [discriminate|]. intros (b&Hb'&_). discriminate.
    + reflexivity.
    + intros b Hb'. discriminate.
Qed.

Lemma goto_bookmark_spec_witness :
  consistent with_bookmarks /\ cursor_ok with_bookmarks /\
  BookManager.current_page (fst (BookManager.goto_bookmark with_bookmarks (py "near")))
  = 2 /\
  fst (BookManager.goto_bookmark with_bookmarks (py "far")) = with_bookmarks.
Proof.
  assert (Hc : consistent with_bookmarks) by reflexivity.
  assert (Hok : cursor_ok with_bookmarks) by (unfold cursor_ok; simpl; lia).
  split; [exact Hc|split; [exact Hok|]].
  split.
  - destruct (goto_bookmark_spec with_bookmarks (py "near") Hc Hok)
      as (_&_&_&_&Hp).
    apply (Hp {| page := 2; timestamp := stamp_0 |}); vm_compute; reflexivity.
  - destruct (goto_bookmark_spec with_bookmarks (py "far") Hc Hok)
      as (_&_&_&Hf&_).
    apply Hf. vm_compute. reflexivity.
Defined.

Section Loading.
Context `{Externals}.
Import BookManager.

(* No page at all: only a non-empty text without a paragraph. *)
Lemma split_into_pages_nil text B :
  split_into_pages text B = [] <-> text <> [] /\ paragraphs text = [].
Proof.
  split.
  - destruct text as [|c text]; [discriminate|]. intros E. split; [discriminate|].
    rewrite split_into_pages_eq in E. apply map_eq_nil in E.
    pose proof (greedy_concat B [] (paragraphs (c :: text))) as Hc.
    rewrite E in Hc. simpl in Hc. now symmetry.
  - intros [Hne Hp]. now apply blank_text_gives_no_page.
Qed.

(* The state after the text of a supported book has been read. *)
Lemma load_book_content fs st p content :
  path_exists fs p = true ->
  (suffix_lower fs p = py ".txt" /\ content = load_txt fs p) \/
  (suffix_lower fs p = py ".epub" /\ content = load_epub fs p) \/
  (suffix_lower fs p = py ".pdf" /\ content = load_pdf fs p) ->
  load_book fs st p
  = (load_bookmarks fs
       {| current_book_path := Some p;
          pages := split_into_pages content 1500;
          current_page := 0;
          total_pages := len (split_into_pages content 1500);
          bookmarks := bookmarks st |} p, true).
Proof.
  intros Hex Hs. unfold load_book. rewrite Hex. cbn [negb].
  destruct Hs as [[Hs ->]|[[Hs ->]|[Hs ->]]]; rewrite Hs;
    repeat (destruct (decide _) as [E|E];
            [try (vm_compute in E; discriminate E)
            |try (exfalso; apply E; reflexivity)]);
    reflexivity.
Qed.

Lemma load_bookmarks_fields fs st p :
  current_book_path (load_bookmarks fs st p) = current_book_path st /\
  pages (load_bookmarks fs st p) = pages st /\
  current_page (load_bookmarks fs st p) = current_page st /\
  total_pages (load_bookmarks fs st p) = total_pages st.
Proof. unfold load_bookmarks. destruct (sidecar fs p); auto. Qed.

End Loading.

(** X3: for an existing .txt, .epub or .pdf file load_book returns True
    from any state: the path is the current book, the pages are those of
    the text read with budget 1500, the cursor is on page 0 and the cursor
    invariant holds with total_pages = len(pages). get_current_page is then
    the first page; it is None exactly when the text is not empty but has
    no paragraph (white space only), although load_book returned True. *)
Theorem load_book_supported `{Externals} (fs : FileSystem)
    (st : BookManager.t) (p content : str) :
  path_exists fs p = true ->
  (suffix_lower fs p = py ".txt" /\ content = load_txt fs p) \/
  (suffix_lower fs p = py ".epub" /\ content = load_epub fs p) \/
  (suffix_lower fs p = py ".pdf" /\ content = load_pdf fs p) ->
  snd (BookManager.load_book fs st p) = true /\
  BookManager.current_book_path (fst (BookManager.load_book fs st p)) = Some p /\
  BookManager.pages (fst (BookManager.load_book fs st p))
  = BookManager.split_into_pages content 1500 /\
  BookManager.current_page (fst (BookManager.load_book fs st p)) = 0 /\
  consistent (fst (BookManager.load_book fs st p)) /\
  cursor_ok (fst (BookManager.load_book fs st p)) /\
  BookManager.get_current_page (fst (BookManager.load_book fs st p))
  = head (BookManager.split_into_pages content 1500) /\
  (BookManager.get_current_page (fst (BookManager.load_book fs st p)) = None <->
   content <> [] /\ paragraphs content = []).
Proof.
  intros Hex Hs. rewrite (load_book_content fs st p content Hex Hs).
  cbn [fst snd].
  match goal with
  | |- context [BookManager.load_bookmarks fs ?s p] =>
      destruct (load_bookmarks_fields fs s p) as (Hp&Hpg&Hcp&Htp);
      set (st' := BookManager.load_bookmarks fs s p) in *
  end.
  cbn [BookManager.current_book_path BookManager.pages BookManager.current_page
       BookManager.total_pages] in Hp, Hpg, Hcp, Htp.
  pose proof (len_nonneg (BookManager.split_into_pages content 1500)) as Hlen.
  assert (Hget : BookManager.get_current_page st'
                 = head (BookManager.split_into_pages content 1500)).
  { unfold BookManager.get_current_page, BookManager.get_page.
    rewrite Hcp, Hpg.
    destruct (BookManager.split_into_pages content 1500) as [|pg pgs];
      reflexivity. }
  split; [reflexivity|]. split; [exact Hp|]. split; [exact Hpg|].
  split; [exact Hcp|]. split; [unfold consistent; congruence|].
  split; [unfold cursor_ok; rewrite Hcp, Htp; lia|].
  split; [exact Hget|].
  rewrite Hget, <- (split_into_pages_nil content 1500).
  destruct (BookManager.split_into_pages content 1500);
    split; intros E; solve [reflexivity | discriminate E].
Qed.

Lemma load_book_supported_witness :
  path_exists one_txt (py "books/b.txt") = true /\
  BookManager.get_current_page
    (fst (BookManager.load_book one_txt (three_pages 2) (py "books/b.txt")))
  = head (BookManager.split_into_pages (two_paragraphs "AAAA" "BBBB") 1500).
Proof.
  split; [reflexivity|].
  apply (load_book_supported one_txt (three_pages 2) (py "books/b.txt")
           (two_paragraphs "AAAA" "BBBB")); [reflexivity|].
  left. split; reflexivity.
Defined.

(* ===================================================================== *)
(* 15. ReadingScreen: the saved progress                                  *)
(* ===================================================================== *)

Section Progress.
Context `{Externals}.
Import ReadingScreen.

Lemma reading_step_refl sh :
  progress_saved sh -> consistent (book_manager sh) ->
  cursor_ok (book_manager sh) -> reading_step_ok sh sh.
Proof. intros. unfold reading_step_ok. auto 10. Qed.

Lemma after_move sh self n :
  progress_saved sh -> consistent (book_manager sh) ->
  cursor_ok (book_manager sh) ->
  reading_step_ok sh
    (fst (fst (let '(bm, ok) := BookManager.go_to_page (book_manager sh) n in
               if ok then moved bm sh self else (sh, self, None)))).
Proof.
  intros Hp Hc Hok.
  destruct (go_to_page_keeps (book_manager sh) n Hc Hok) as (H1&H2&_&_&_).
  rewrite go_to_page_spec in *.
  destruct ((0 <=? n) && (n <? len (BookManager.pages (book_manager sh))));
    cbn [fst snd moved] in *; [|now apply reading_step_refl].
  unfold reading_step_ok, progress_saved. cbn [book_manager config].
  split; [apply lookup_insert_eq|]. split; [exact H1|]. split; [exact H2|].
  split; [reflexivity|]. split; [reflexivity|]. split; [reflexivity|].
  intros k Hk. now apply lookup_insert_ne.
Qed.

Lemma reading_event_keeps sh self ev d :
  progress_saved sh -> consistent (book_manager sh) ->
  cursor_ok (book_manager sh) ->
  reading_step_ok sh (fst (fst (handle_event sh self ev d))).
Proof.
  intros Hp Hc Hok. unfold handle_event, BookManager.next_page,
    BookManager.prev_page.
  repeat match goal with
         | |- context [String.eqb ev ?b] => destruct (String.eqb ev b)
         end;
    try (now apply after_move); try (now apply reading_step_refl).
  destruct d; try (now apply after_move); now apply reading_step_refl.
Qed.

Lemma reading_step_trans sh1 sh2 sh3 :
  reading_step_ok sh1 sh2 -> reading_step_ok sh2 sh3 -> reading_step_ok sh1 sh3.
Proof.
  intros (_&_&_&A1&A2&A3&A4) (B0&B1&B2&B3&B4&B5&B6).
  unfold reading_step_ok. repeat (split; [assumption || congruence|]).
  intros k Hk. rewrite B6 by exact Hk. now apply A4.
Qed.

Lemma reading_events_keep evs sh self :
  progress_saved sh -> consistent (book_manager sh) ->
  cursor_ok (book_manager sh) ->
  reading_step_ok sh (fst (reading_events evs (sh, self))).
Proof.
  revert sh self. induction evs as [|[ev d] evs IH]; intros sh self Hp Hc Hok.
  - now apply reading_step_refl.
  - change (reading_events ((ev, d) :: evs) (sh, self))
      with (reading_events evs (fst (handle_event sh self ev d))).
    pose proof (reading_event_keeps sh self ev d Hp Hc Hok) as Hstep.
    destruct (handle_event sh self ev d) as [[sh1 self1] r]. cbn [fst] in *.
    eapply reading_step_trans; [exact Hstep|].
    destruct Hstep as (Q1&Q2&Q3&_). now apply IH.
Qed.

End Progress.

(** X4: on the Reading screen, whatever events arrive (NEXT_PAGE,
    PREV_PAGE, GOTO_PAGE with any data, or any other), the page stored
    under "current_page" in the config stays the page of the cursor, the
    cursor invariant is kept, and nothing else changes: not the pages, the
    bookmarks or the book path, and no other key of the config. *)
Theorem reading_keeps_progress `{Externals} (sh : ReadingScreen.shared)
    (self : ReadingScreen.t) (evs : list (string * value)) :
  progress_saved sh ->
  consistent (ReadingScreen.book_manager sh) ->
  cursor_ok (ReadingScreen.book_manager sh) ->
  progress_saved (fst (reading_events evs (sh, self))) /\
  cursor_ok (ReadingScreen.book_manager (fst (reading_events evs (sh, self)))) /\
  BookManager.pages (ReadingScreen.book_manager (fst (reading_events evs (sh, self))))
  = BookManager.pages (ReadingScreen.book_manager sh) /\
  BookManager.bookmarks (ReadingScreen.book_manager (fst (reading_events evs (sh, self))))
  = BookManager.bookmarks (ReadingScreen.book_manager sh) /\
  BookManager.current_book_path
    (ReadingScreen.book_manager (fst (reading_events evs (sh, self))))
  = BookManager.current_book_path (ReadingScreen.book_manager sh) /\
  (forall k, k <> "current_page"%string ->
             ReadingScreen.config (fst (reading_events evs (sh, self))) !! k
             = ReadingScreen.config sh !! k).
Proof.
  intros Hp Hc Hok.
  destruct (reading_events_keep evs sh self Hp Hc Hok) as (A&_&B&C&D&E&F).
  auto 10.
Qed.

Lemma reading_keeps_progress_witness :
  progress_saved reading_start /\
  progress_saved
    (fst (reading_events
            [("NEXT_PAGE"%string, VNone); ("GOTO_PAGE"%string, VInt 2);
             ("GOTO_PAGE"%string, VInt 9); ("PREV_PAGE"%string, VNone)]
            (reading_start, idle_screen))).
Proof.
  assert (Hp : progress_saved reading_start) by reflexivity.
  split; [exact Hp|].
  apply (reading_keeps_progress reading_start idle_screen); [exact Hp|reflexivity|].
  unfold cursor_ok; simpl; lia.
Defined.

(* ===================================================================== *)
(* 16. HomeScreen: selection and list pages                               *)
(* ===================================================================== *)

Section Shelf.
Context `{Externals}.
Import HomeScreen.

Lemma up_event_eq self d :
  handle_event self "UP" d
  = if 0 <? selected_index self then
      (update self
         (if selected_index self - 1 <? current_page self * items_per_page self
          then Z.max 0 (current_page self - 1) else current_page self)
         (selected_index self - 1),
       Return (Some ("REFRESH"%string, PNone)))
    else (self, Return None).
Proof. reflexivity. Qed.

Lemma next_event_eq self d :
  handle_event self "NEXT_PAGE" d
  = match floordiv (len (books self) + items_per_page self - 1) (items_per_page self) with
    | Raise e => (self, Raise e)
    | Return total_pages =>
        if current_page self <? total_pages - 1
        then (update self (current_page self + 1) (selected_index self),
              Return (Some ("REFRESH"%string, PNone)))
        else (self, Return None)
    end.
Proof. reflexivity. Qed.

Lemma prev_event_eq self d :
  handle_event self "PREV_PAGE" d
  = if 0 <? current_page self
    then (update self (current_page self - 1) (selected_index self),
          Return (Some ("REFRESH"%string, PNone)))
    else (self, Return None).
Proof. reflexivity. Qed.

Lemma select_event_eq self d :
  handle_event self "SELECT" d
  = if (0 <=? selected_index self) && (selected_index self <? len (books self)) then
      match books self !! Z.to_nat (selected_index self) with
      | Some b => (self, Return (Some ("LOAD_BOOK"%string, PPath (path b))))
      | None => (self, Raise IndexError)
      end
    else (self, Return None).
Proof. reflexivity. Qed.

(* UP and DOWN keep the selection on the page shown. *)
Lemma up_down_shown self ev d :
  ev = "UP"%string \/ ev = "DOWN"%string ->
  selection_shown self ->
  selection_shown (fst (handle_event self ev d)) /\
  books (fst (handle_event self ev d)) = books self /\
  items_per_page (fst (handle_event self ev d)) = items_per_page self.
Proof.
  intros [-> | ->] (Hcp & Hsel & Hlen).
  - rewrite up_event_eq. destruct (Z.ltb_spec 0 (selected_index self));
      cbn [fst]; [|unfold selection_shown; auto].
    unfold selection_shown, update. cbn [current_page selected_index books
      items_per_page].
    destruct (Z.ltb_spec (selected_index self - 1)
                (current_page self * items_per_page self)).
    + repeat split; try lia; nia.
    + repeat split; try lia; nia.
  - rewrite down_event_eq. destruct (Z.ltb_spec (selected_index self)
                                       (len (books self) - 1));
      cbn [fst]; [|unfold selection_shown; auto].
    unfold selection_shown, update. cbn [current_page selected_index books
      items_per_page].
    destruct (Z.leb_spec ((current_page self + 1) * items_per_page self)
                (selected_index self + 1)).
    + repeat split; try lia; nia.
    + repeat split; try lia; nia.
Qed.

Lemma up_down_events_shown evs self :
  Forall (fun ev => ev = "UP"%string \/ ev = "DOWN"%string) evs ->
  selection_shown self ->
  selection_shown (home_events evs self) /\
  books (home_events evs self) = books self.
Proof.
  intros Hevs. revert self. induction Hevs as [|ev evs Hev _ IH]; intros self Hs.
  - auto.
  - change (home_events (ev :: evs) self)
      with (home_events evs (fst (handle_event self ev VNone))).
    destruct (up_down_shown self ev VNone Hev Hs) as (Hs'&Hb&_).
    destruct (IH _ Hs') as (?&?). split; [assumption|congruence].
Qed.

(* SELECT on a selection inside the list opens the selected book. *)
Lemma select_in_range self d :
  0 <= selected_index self < len (books self) ->
  exists b, books self !! Z.to_nat (selected_index self) = Some b /\
            handle_event self "SELECT" d
            = (self, Return (Some ("LOAD_BOOK"%string, PPath (path b)))).
Proof.
  intros Hr. rewrite select_event_eq.
  replace ((0 <=? selected_index self) && (selected_index self <? len (books self)))
    with true by (symmetry; apply andb_true_iff; split;
                  [apply Z.leb_le|apply Z.ltb_lt]; lia).
  destruct (lookup_lt_is_Some_2 (books self) (Z.to_nat (selected_index self)))
    as [b Hb]; [unfold len in Hr; lia|].
  exists b. now rewrite Hb.
Qed.

End Shelf.

(** X5: on the Home screen, UP and DOWN keep the selection on a book of the
    list and on the list page that is shown
    (current_page * items_per_page <= selected_index <
    (current_page + 1) * items_per_page), whatever their order and number;
    the list is not changed, and SELECT then returns LOAD_BOOK with the
    path of the selected book. *)
Theorem home_selection_stays_shown `{Externals} (self : HomeScreen.t)
    (evs : list string) :
  selection_shown self ->
  Forall (fun ev => ev = "UP"%string \/ ev = "DOWN"%string) evs ->
  selection_shown (home_events evs self) /\
  HomeScreen.books (home_events evs self) = HomeScreen.books self /\
  exists b,
    HomeScreen.books self
      !! Z.to_nat (HomeScreen.selected_index (home_events evs self)) = Some b /\
    HomeScreen.handle_event (home_events evs self) "SELECT" VNone
    = (home_events evs self,
       Return (Some ("LOAD_BOOK"%string, PPath (HomeScreen.path b)))).
Proof.
  intros Hs Hevs.
  destruct (up_down_events_shown evs self Hevs Hs) as (Hs'&Hb).
  split; [exact Hs'|]. split; [exact Hb|].
  destruct Hs' as (Hcp&Hsel&Hlen).
  destruct (select_in_range (home_events evs self) VNone) as (b&Hl&He); [nia|].
  exists b. rewrite <- Hb. auto.
Qed.

Lemma home_selection_stays_shown_witness :
  selection_shown shelf_of_13 /\
  selection_shown
    (home_events ["DOWN"; "DOWN"; "UP"; "UP"; "UP"; "DOWN"]%string shelf_of_13).
Proof.
  assert (Hs : selection_shown shelf_of_13)
    by (unfold selection_shown, shelf_of_13, len; cbn; lia).
  split; [exact Hs|].
  apply (home_selection_stays_shown shelf_of_13); [exact Hs|].
  repeat (constructor; [first [left; reflexivity|right; reflexivity]|]).
  constructor.
Defined.

(** X6: on the Home screen with the selection shown, DOWN followed by UP
    (when the selection is not the last book) and UP followed by DOWN (when
    it is not the first) bring back the same selection and the same list
    page, also across a page flip; only need_refresh is left set. *)
Theorem home_down_up_round_trip `{Externals} (self : HomeScreen.t) :
  selection_shown self ->
  (HomeScreen.selected_index self < len (HomeScreen.books self) - 1 ->
   home_events ["DOWN"; "UP"]%string self
   = HomeScreen.update self (HomeScreen.current_page self)
       (HomeScreen.selected_index self)) /\
  (0 < HomeScreen.selected_index self ->
   home_events ["UP"; "DOWN"]%string self
   = HomeScreen.update self (HomeScreen.current_page self)
       (HomeScreen.selected_index self)).
Proof.
  intros (Hcp & Hsel & Hlen). split; intros Hb.
  - unfold home_events. cbn [fold_left]. rewrite down_event_eq.
    replace (HomeScreen.selected_index self <? len (HomeScreen.books self) - 1)
      with true by (symmetry; apply Z.ltb_lt; lia).
    cbn [fst]. rewrite up_event_eq. unfold HomeScreen.update.
    cbn [HomeScreen.current_page HomeScreen.selected_index HomeScreen.books
         HomeScreen.items_per_page fst].
    replace (0 <? HomeScreen.selected_index self + 1)
      with true by (symmetry; apply Z.ltb_lt; nia).
    cbn [fst]. f_equal; [|lia].
    destruct (Z.leb_spec ((HomeScreen.current_page self + 1)
                          * HomeScreen.items_per_page self)
                (HomeScreen.selected_index self + 1)).
    + replace (HomeScreen.selected_index self + 1 - 1
               <? (HomeScreen.current_page self + 1)
                  * HomeScreen.items_per_page self)
        with true by (symmetry; apply Z.ltb_lt; lia). lia.
    + replace (HomeScreen.selected_index self + 1 - 1
               <? HomeScreen.current_page self * HomeScreen.items_per_page self)
        with false by (symmetry; apply Z.ltb_ge; lia). reflexivity.
  - unfold home_events. cbn [fold_left]. rewrite up_event_eq.
    replace (0 <? HomeScreen.selected_index self)
      with true by (symmetry; apply Z.ltb_lt; lia).
    cbn [fst]. rewrite down_event_eq. unfold HomeScreen.update.
    cbn [HomeScreen.current_page HomeScreen.selected_index HomeScreen.books
         HomeScreen.items_per_page fst].
    replace (HomeScreen.selected_index self - 1 <? len (HomeScreen.books self) - 1)
      with true by (symmetry; apply Z.ltb_lt; lia).
    cbn [fst]. f_equal; [|lia].
    destruct (Z.ltb_spec (HomeScreen.selected_index self - 1)
                (HomeScreen.current_page self * HomeScreen.items_per_page self)).
    + assert (0 < HomeScreen.current_page self) by nia.
      replace (Z.max 0 (HomeScreen.current_page self - 1))
        with (HomeScreen.current_page self - 1) by lia.
      replace ((HomeScreen.current_page self - 1 + 1)
               * HomeScreen.items_per_page self
               <=? HomeScreen.selected_index self - 1 + 1)
        with true by (symmetry; apply Z.leb_le; nia). lia.
    + replace ((HomeScreen.current_page self + 1)
               * HomeScreen.items_per_page self
               <=? HomeScreen.selected_index self - 1 + 1)
        with false by (symmetry; apply Z.leb_gt; lia). reflexivity.
Qed.

Lemma home_down_up_round_trip_witness :
  selection_shown shelf_of_13 /\
  home_events ["DOWN"; "UP"]%string shelf_of_13
  = HomeScreen.update shelf_of_13 0 5.
Proof.
  assert (Hs : selection_shown shelf_of_13)
    by (unfold selection_shown, shelf_of_13, len; cbn; lia).
  split; [exact Hs|].
  apply (proj1 (home_down_up_round_trip shelf_of_13 Hs)).
  unfold shelf_of_13, len; cbn; lia.
Defined.

Section ListPages.
Context `{Externals}.
Import HomeScreen.

(* Any event leaves the list page inside the list and raises nothing. *)
Lemma home_event_in_range self ev d :
  0 < items_per_page self -> page_in_range self ->
  page_in_range (fst (handle_event self ev d)) /\
  books (fst (handle_event self ev d)) = books self /\
  items_per_page (fst (handle_event self ev d)) = items_per_page self /\
  exists r, snd (handle_event self ev d) = Return r.
Proof.
  intros Hipp (Hcp & Hpg).
  pose proof (len_nonneg (books self)) as Hlen.
  unfold handle_event.
  repeat match goal with
         | |- context [String.eqb ev ?b] => destruct (String.eqb ev b)
         end.
  - unfold floordiv. destruct (Z.eqb_spec (items_per_page self) 0); [lia|].
    pose proof (Z.mul_div_le (len (books self) + items_per_page self - 1)
                  (items_per_page self) Hipp) as Hdiv.
    destruct (Z.ltb_spec (current_page self)
                ((len (books self) + items_per_page self - 1)
                 / items_per_page self - 1)); cbn [fst snd];
      unfold page_in_range, update; cbn [current_page books items_per_page];
      (split; [split; [lia|]|split; [reflexivity|split; [reflexivity|eauto]]]);
      [right; nia|exact Hpg].
  - destruct (Z.ltb_spec 0 (current_page self)); cbn [fst snd];
      unfold page_in_range, update; cbn [current_page books items_per_page];
      (split; [split; [lia|]|split; [reflexivity|split; [reflexivity|eauto]]]);
      [|exact Hpg].
    destruct Hpg as [Hz|Hlt]; [lia|]. right. nia.
  - destruct (Z.ltb_spec 0 (selected_index self)); cbn [fst snd];
      unfold page_in_range, update; cbn [current_page books items_per_page];
      (split; [split|split; [reflexivity|split; [reflexivity|eauto]]]);
      try exact Hpg; try exact Hcp.
    + destruct (_ <? _); lia.
    + destruct (_ <? _); [|exact Hpg].
      destruct (Z.eq_dec (current_page self) 0) as [Hz|Hnz];
        [left; lia|]. destruct Hpg as [Hz|Hlt]; [lia|]. right. nia.
  - destruct (Z.ltb_spec (selected_index self) (len (books self) - 1));
      cbn [fst snd];
      unfold page_in_range, update; cbn [current_page books items_per_page];
      (split; [split|split; [reflexivity|split; [reflexivity|eauto]]]);
      try exact Hpg; try exact Hcp.
    + destruct (_ <=? _); lia.
    + destruct (Z.leb_spec ((current_page self + 1) * items_per_page self)
                  (selected_index self + 1)); [right; lia|exact Hpg].
  - destruct ((0 <=? selected_index self) && (selected_index self <? len (books self)))
      eqn:E; cbn [fst snd].
    + apply andb_true_iff in E as [E1 E2].
      apply Z.leb_le in E1. apply Z.ltb_lt in E2.
      destruct (lookup_lt_is_Some_2 (books self) (Z.to_nat (selected_index self)))
        as [b Hb]; [unfold len in E2; lia|].
      rewrite Hb. cbn [fst snd]. unfold page_in_range. eauto 10.
    + unfold page_in_range. eauto 10.
  - cbn [fst snd]. unfold page_in_range. eauto 10.
  - cbn [fst snd]. unfold page_in_range. eauto 10.
Qed.

Lemma home_events_in_range evs self :
  0 < items_per_page self -> page_in_range self ->
  page_in_range (home_events evs self) /\
  books (home_events evs self) = books self /\
  items_per_page (home_events evs self) = items_per_page self.
Proof.
  revert self. induction evs as [|ev evs IH]; intros self Hipp Hr; [auto|].
  change (home_events (ev :: evs) self)
    with (home_events evs (fst (handle_event self ev VNone))).
  destruct (home_event_in_range self ev VNone Hipp Hr) as (Hr'&Hb&Hi&_).
  destruct (IH (fst (handle_event self ev VNone))) as (?&?&?);
    [lia|exact Hr'|].
  split; [assumption|split; congruence].
Qed.

End ListPages.

(** X7: on the Home screen with a positive page size, no sequence of events
    takes the list page out of the list: current_page stays >= 0 and, unless
    it is 0, the first row of the page is a book
    (current_page * items_per_page < len(books)); the list and the page size
    are not changed, and no event raises an exception in the state
    reached. *)
Theorem home_page_stays_in_range `{Externals} (self : HomeScreen.t)
    (evs : list string) :
  0 < HomeScreen.items_per_page self -> page_in_range self ->
  page_in_range (home_events evs self) /\
  HomeScreen.books (home_events evs self) = HomeScreen.books self /\
  HomeScreen.items_per_page (home_events evs self) = HomeScreen.items_per_page self /\
  (forall ev d, exists r,
     snd (HomeScreen.handle_event (home_events evs self) ev d) = Return r).
Proof.
  intros Hipp Hr.
  destruct (home_events_in_range evs self Hipp Hr) as (Hr'&Hb&Hi).
  split; [exact Hr'|]. split; [exact Hb|]. split; [exact Hi|].
  intros ev d.
  destruct (home_event_in_range (home_events evs self) ev d) as (_&_&_&Hret);
    [lia|exact Hr'|exact Hret].
Qed.

Lemma home_page_stays_in_range_witness :
  0 < HomeScreen.items_per_page shelf_of_13 /\ page_in_range shelf_of_13 /\
  page_in_range
    (home_events ["NEXT_PAGE"; "NEXT_PAGE"; "NEXT_PAGE"; "NEXT_PAGE"; "UP"]%string
       shelf_of_13).
Proof.
  assert (Hi : 0 < HomeScreen.items_per_page shelf_of_13) by (simpl; lia).
  assert (Hr : page_in_range shelf_of_13)
    by (unfold page_in_range; simpl; lia).
  split; [exact Hi|split; [exact Hr|]].
  apply (home_page_stays_in_range shelf_of_13 _ Hi Hr).
Defined.

(** X8: NEXT_PAGE and PREV_PAGE on the Home screen flip the list page
    without moving the selection: when the selection was on the page shown
    and the flip happens (REFRESH is returned), the selected book is no
    longer on the page shown. *)
Theorem home_page_flip_hides_selection `{Externals} (self : HomeScreen.t)
    (event_data : value) :
  selection_shown self ->
  (snd (HomeScreen.handle_event self "NEXT_PAGE" event_data)
   = Return (Some ("REFRESH"%string, PNone)) ->
   HomeScreen.selected_index (fst (HomeScreen.handle_event self "NEXT_PAGE" event_data))
   = HomeScreen.selected_index self /\
   HomeScreen.current_page (fst (HomeScreen.handle_event self "NEXT_PAGE" event_data))
   = HomeScreen.current_page self + 1 /\
   ~ selection_shown (fst (HomeScreen.handle_event self "NEXT_PAGE" event_data))) /\
  (snd (HomeScreen.handle_event self "PREV_PAGE" event_data)
   = Return (Some ("REFRESH"%string, PNone)) ->
   HomeScreen.selected_index (fst (HomeScreen.handle_event self "PREV_PAGE" event_data))
   = HomeScreen.selected_index self /\
   HomeScreen.current_page (fst (HomeScreen.handle_event self "PREV_PAGE" event_data))
   = HomeScreen.current_page self - 1 /\
   ~ selection_shown (fst (HomeScreen.handle_event self "PREV_PAGE" event_data))).
Proof.
  intros (Hcp & Hsel & Hlen). split.
  - rewrite next_event_eq.
    destruct (floordiv _ _) as [total|e]; cbn [fst snd]; [|discriminate].
    destruct (_ <? _); cbn [fst snd]; [|discriminate].
    intros _. unfold selection_shown, HomeScreen.update.
    cbn [HomeScreen.current_page HomeScreen.selected_index HomeScreen.books
         HomeScreen.items_per_page].
    split; [reflexivity|split; [reflexivity|]]. intros (_ & H1 & _). lia.
  - rewrite prev_event_eq.
    destruct (_ <? _); cbn [fst snd]; [|discriminate].
    intros _. unfold selection_shown, HomeScreen.update.
    cbn [HomeScreen.current_page HomeScreen.selected_index HomeScreen.books
         HomeScreen.items_per_page].
    split; [reflexivity|split; [reflexivity|]]. intros (_ & H1 & _).
    replace (HomeScreen.current_page self - 1 + 1)
      with (HomeScreen.current_page self) in H1 by lia. lia.
Qed.

Lemma home_page_flip_hides_selection_witness :
  selection_shown shelf_of_13 /\
  ~ selection_shown (fst (HomeScreen.handle_event shelf_of_13 "NEXT_PAGE" VNone)).
Proof.
  assert (Hs : selection_shown shelf_of_13)
    by (unfold selection_shown, shelf_of_13, len; cbn; lia).
  split; [exact Hs|].
  apply (proj1 (home_page_flip_hides_selection shelf_of_13 VNone Hs)).
  reflexivity.
Defined.

(* ===================================================================== *)
(* 17. MenuScreen                                                         *)
(* ===================================================================== *)

Section Menu.
Context `{Externals}.
Import MenuScreen.

Lemma menu_index_cases self :
  menu_ok self ->
  selected_index self = 0 \/ selected_index self = 1 \/ selected_index self = 2 \/
  selected_index self = 3 \/ selected_index self = 4 \/ selected_index self = 5.
Proof. unfold menu_ok. change (len menu_items) with 6. lia. Qed.

(* Any event keeps the selection on an entry and raises nothing; SELECT
   returns a command. *)
Lemma menu_event_ok bm self ev d :
  menu_ok self ->
  menu_ok (fst (handle_event bm self ev d)) /\
  exists r, snd (handle_event bm self ev d) = Return r /\
            (ev = "SELECT"%string -> exists c, r = Some c).
Proof.
  intros Hok. pose proof Hok as Hr. unfold menu_ok in Hr.
  change (len menu_items) with 6 in Hr.
  unfold handle_event.
  destruct (String.eqb_spec ev "UP") as [->|_].
  { destruct (Z.ltb_spec 0 (selected_index self)); cbn [fst snd].
    - split; [unfold menu_ok; change (len menu_items) with 6; simpl; lia|].
      eexists; split; [reflexivity|discriminate].
    - split; [exact Hok|]. eexists; split; [reflexivity|discriminate]. }
  destruct (String.eqb_spec ev "DOWN") as [->|_].
  { change (len menu_items) with 6.
    destruct (Z.ltb_spec (selected_index self) (6 - 1)); cbn [fst snd].
    - split; [unfold menu_ok; change (len menu_items) with 6; simpl; lia|].
      eexists; split; [reflexivity|discriminate].
    - split; [exact Hok|]. eexists; split; [reflexivity|discriminate]. }
  destruct (String.eqb_spec ev "SELECT") as [->|Hns].
  { destruct (menu_index_cases self Hok) as [E|[E|[E|[E|[E|E]]]]];
      rewrite E; cbn; try destruct (BookManager.current_book_path bm);
      cbn [fst snd]; (split; [exact Hok|]);
      eexists; (split; [reflexivity|]); intros _; eexists; reflexivity. }
  destruct (String.eqb ev "SHOW_HOME"); cbn [fst snd];
    (split; [exact Hok|]); eexists; (split; [reflexivity|]); intros E;
    congruence.
Qed.

Lemma menu_events_ok bm evs self :
  menu_ok self -> menu_ok (menu_events bm evs self).
Proof.
  revert self. induction evs as [|[ev d] evs IH]; intros self Hok; [exact Hok|].
  change (menu_events bm ((ev, d) :: evs) self)
    with (menu_events bm evs (fst (handle_event bm self ev d))).
  apply IH. now destruct (menu_event_ok bm self ev d Hok).
Qed.

End Menu.

(** X9: on the Menu screen, from a selection on one of the six entries, no
    sequence of events moves the selection off the entries (UP stops at the
    first, DOWN at the last) and no event raises; SELECT always returns a
    command, and on the first entry (BACK) it is SHOW_READING when a book is
    loaded and SHOW_HOME when none is. *)
Theorem menu_selection_stays_valid `{Externals} (bm : BookManager.t)
    (self : MenuScreen.t) (evs : list (string * value)) :
  menu_ok self ->
  menu_ok (menu_events bm evs self) /\
  (forall ev d, exists r,
     snd (MenuScreen.handle_event bm (menu_events bm evs self) ev d) = Return r /\
     (ev = "SELECT"%string -> exists c, r = Some c)) /\
  (MenuScreen.selected_index (menu_events bm evs self) = 0 ->
   snd (MenuScreen.handle_event bm (menu_events bm evs self) "SELECT" VNone)
   = Return (Some (match BookManager.current_book_path bm with
                   | Some _ => "SHOW_READING"%string
                   | None => "SHOW_HOME"%string
                   end, PNone))).
Proof.
  intros Hok. pose proof (menu_events_ok bm evs self Hok) as Hok'.
  split; [exact Hok'|]. split.
  - intros ev d. now destruct (menu_event_ok bm (menu_events bm evs self) ev d Hok').
  - intros E. unfold MenuScreen.handle_event. rewrite E. cbn.
    now destruct (BookManager.current_book_path bm).
Qed.

Lemma menu_selection_stays_valid_witness :
  menu_ok MenuScreen.init /\
  menu_ok (menu_events (@three_pages exact_floats 0)
             [("DOWN"%string, VNone); ("DOWN"%string, VNone); ("UP"%string, VNone);
              ("SELECT"%string, VNone)] MenuScreen.init).
Proof.
  assert (Hok : menu_ok MenuScreen.init) by (unfold menu_ok, len; cbn; lia).
  split; [exact Hok|].
  apply (menu_selection_stays_valid (@three_pages exact_floats 0)
           MenuScreen.init _ Hok).
Defined.

(* ===================================================================== *)
(* 18. DisplayManager: wrapping                                           *)
(* ===================================================================== *)

Section Wrapping.
Import DisplayManager.

Lemma lstrip_id s :
  (forall c, head s = Some c -> is_space c = false) -> lstrip s = s.
Proof.
  destruct s as [|c s]; [reflexivity|]. intros Hh. simpl.
  now rewrite (Hh c eq_refl).
Qed.

Lemma rstrip_id s :
  (forall c, last s = Some c -> is_space c = false) -> rstrip s = s.
Proof.
  intros Hl. unfold rstrip. rewrite lstrip_id; [apply rev_involutive|].
  intros c Hc. apply Hl. rewrite <- Hc, <- (last_rev (rev s)).
  now rewrite rev_involutive.
Qed.

Lemma strip_id s : trimmed s -> strip s = s.
Proof.
  intros [Hh Hl]. unfold strip. rewrite (lstrip_id s Hh). now apply rstrip_id.
Qed.

(* A space in front is stripped with the rest. *)
Lemma strip_space_cons s : strip (SP :: s) = strip s.
Proof. reflexivity. Qed.

Lemma trimmed_join_space a b :
  a <> [] -> b <> [] -> trimmed a -> trimmed b -> trimmed (a ++ SP :: b).
Proof.
  intros Ha Hb [Hah _] [_ Hbl]. split; intros c.
  - destruct a as [|d a]; [congruence|]. exact (Hah c).
  - change (a ++ SP :: b) with (a ++ [SP] ++ b). rewrite app_assoc.
    destruct b as [|d b] using rev_ind; [congruence|].
    rewrite app_assoc, last_snoc. intros E. apply Hbl. now rewrite last_snoc.
Qed.

Lemma split_on_not_nil c s : split_on c s <> [].
Proof.
  destruct s as [|d s]; simpl; [discriminate|].
  destruct (d =? c)%N; [discriminate|]. now destruct (split_on c s).
Qed.

Lemma split_on_app c a b :
  split_on c (a ++ c :: b) = split_on c a ++ split_on c b.
Proof.
  induction a as [|d a IH]; simpl.
  - now rewrite N.eqb_refl.
  - destruct (d =? c)%N; [now rewrite IH|]. rewrite IH.
    pose proof (split_on_not_nil c a). now destruct (split_on c a).
Qed.

(* The words of a split hold no separator. *)
Lemma split_on_words c s : Forall (fun w => ~ In c w) (split_on c s).
Proof.
  induction s as [|d s IH]; simpl.
  - constructor; [intros []|constructor].
  - destruct (N.eqb_spec d c) as [->|Hne].
    + constructor; [intros []|exact IH].
    + destruct (split_on c s) as [|w ws]; [repeat constructor; intros [E|[]]; congruence|].
      inversion IH as [|? ? Hw Hws]; subst. constructor; [|exact Hws].
      intros [E|Hin]; [congruence|now apply Hw].
Qed.

Lemma split_on_word c w : ~ In c w -> split_on c w = [w].
Proof.
  induction w as [|d w IH]; intros Hn; [reflexivity|]. simpl.
  destruct (N.eqb_spec d c) as [->|_]; [destruct Hn; now left|].
  rewrite IH; [reflexivity|]. intros Hin. apply Hn. now right.
Qed.

End Wrapping.

Section WrapLoop.
Import DisplayManager.
Variable font : Font.
Variable width : Z.

Lemma wrap_lines_pending text :
  wrap_lines font width text
  = pending (fold_left (wrap_body font width) (split_on SP text)
               {| w_lines := []; w_current_line := [] |}).
Proof.
  unfold wrap_lines, pending. cbv zeta.
  destruct (w_current_line _); [now rewrite app_nil_r|reflexivity].
Qed.

(* The loop keeps every line non-empty, and fitting unless it is a word. *)
Lemma wrap_fold_fits all words st :
  (forall w, In w words -> In w all) ->
  Forall (fits_or_word font width all) (w_lines st) ->
  (w_current_line st = [] \/ fits_or_word font width all (w_current_line st)) ->
  Forall (fits_or_word font width all)
         (pending (fold_left (wrap_body font width) words st)).
Proof.
  revert st. induction words as [|w words IH]; intros st Hin Hl Hc.
  - simpl. unfold pending. apply Forall_app. split; [exact Hl|].
    destruct (w_current_line st) eqn:E; [constructor|].
    destruct Hc as [Hc|Hc]; [discriminate|]. constructor; [exact Hc|constructor].
  - simpl fold_left. apply IH; [intros; apply Hin; now right| |];
      unfold wrap_body; destruct (w_current_line st) as [|c cur] eqn:E.
    + rewrite orb_true_r. exact Hl.
    + rewrite orb_false_r. destruct (_ <=? _); cbn [w_lines]; [exact Hl|].
      apply Forall_app. split; [exact Hl|]. constructor; [|constructor].
      destruct Hc as [Hc|Hc]; [discriminate|exact Hc].
    + rewrite orb_true_r. cbn [w_current_line]. simpl app.
      rewrite strip_space_cons.
      destruct (strip w) eqn:Es; [now left|]. right. split; [discriminate|].
      right. exists w. split; [apply Hin; now left|]. right. now rewrite Es.
    + rewrite orb_false_r.
      destruct (Z.leb_spec (bbox_width (font (strip ((c :: cur) ++ [SP] ++ w))))
                  width) as [Hle|Hgt]; cbn [w_current_line].
      * destruct (strip ((c :: cur) ++ [SP] ++ w)) eqn:Es; [now left|].
        right. split; [discriminate|]. now left.
      * destruct w as [|d w]; [now left|]. right. split; [discriminate|].
        right. exists (d :: w). split; [apply Hin; now left|]. now left.
Qed.

Lemma pending_filling lines cur :
  cur <> [] -> pending {| w_lines := lines; w_current_line := cur |} = lines ++ [cur].
Proof. unfold pending. cbn [w_lines w_current_line]. now destruct cur. Qed.

Lemma words_of_app a b : words_of (a ++ b) = words_of a ++ words_of b.
Proof. unfold words_of. now rewrite map_app, concat_app. Qed.

Lemma words_of_one l : words_of [l] = split_on SP l.
Proof. unfold words_of. simpl. apply app_nil_r. Qed.

(* One word with clean ends goes into the lines as it is. *)
Lemma wrap_body_words st w :
  w <> [] -> trimmed w -> ~ In SP w ->
  (w_current_line st = [] \/ trimmed (w_current_line st)) ->
  words_of (pending (wrap_body font width st w)) = words_of (pending st) ++ [w] /\
  trimmed (w_current_line (wrap_body font width st w)).
Proof.
  intros Hne Ht Hsp Hc.
  assert (Hsplit : split_on SP w = [w]) by now apply split_on_word.
  unfold wrap_body. destruct st as [lines cur]. cbn [w_lines w_current_line] in *.
  destruct cur as [|c cur].
  - rewrite orb_true_r. simpl app. rewrite strip_space_cons, (strip_id w Ht).
    cbn [w_current_line]. split; [|exact Ht].
    rewrite (pending_filling lines w Hne). unfold pending.
    cbn [w_lines w_current_line].
    now rewrite !words_of_app, words_of_one, Hsplit, app_nil_r.
  - rewrite orb_false_r.
    assert (Htc : trimmed (c :: cur))
      by (destruct Hc as [Hc|Hc]; [discriminate|exact Hc]).
    assert (Hj : trimmed ((c :: cur) ++ SP :: w))
      by (apply trimmed_join_space; [discriminate|exact Hne|exact Htc|exact Ht]).
    change ((c :: cur) ++ [SP] ++ w) with ((c :: cur) ++ SP :: w).
    rewrite (strip_id _ Hj).
    rewrite (pending_filling lines (c :: cur)) by discriminate.
    destruct (_ <=? _); cbn [w_current_line].
    + split; [|exact Hj]. rewrite pending_filling by discriminate.
      rewrite !words_of_app, !words_of_one, split_on_app, Hsplit.
      now rewrite <- app_assoc.
    + split; [|exact Ht]. rewrite (pending_filling _ w Hne).
      now rewrite !words_of_app, !words_of_one, Hsplit.
Qed.

(* With words that are not empty and have clean ends, the loop keeps the
   words, in order. *)
Lemma wrap_fold_words words st :
  Forall (fun w => w <> [] /\ trimmed w /\ ~ In SP w) words ->
  (w_current_line st = [] \/ trimmed (w_current_line st)) ->
  words_of (pending (fold_left (wrap_body font width) words st))
  = words_of (pending st) ++ words.
Proof.
  intros Hw. revert st. induction Hw as [|w words (Hne & Ht & Hsp) _ IH];
    intros st Hc.
  - simpl. now rewrite app_nil_r.
  - simpl fold_left.
    destruct (wrap_body_words st w Hne Ht Hsp Hc) as [Hstep Htrim].
    rewrite IH by (right; exact Htrim). rewrite Hstep.
    now rewrite <- app_assoc.
Qed.

End WrapLoop.

(** X10: every line that the wrapping of draw_text_box produces is
    non-empty, and it fits the width of the box unless it is a single word
    of text.split(' ') (as it is, or stripped): a word is never split, and
    only a word that is too wide by itself gives a line wider than the
    box. *)
Theorem wrapped_lines_fit_or_one_word (font : DisplayManager.Font) (width : Z)
    (text : str) :
  Forall (fits_or_word font width (split_on SP text))
         (DisplayManager.wrap_lines font width text).
Proof.
  rewrite wrap_lines_pending. apply wrap_fold_fits; [auto|constructor|now left].
Qed.

(** X11: when the words of the text (the pieces between single spaces) are
    not empty and have no white space at their ends, wrapping loses, adds
    and reorders nothing: the words of the wrapped lines, in order, are the
    words of the text. *)
Theorem wrapping_keeps_words (font : DisplayManager.Font) (width : Z)
    (text : str) :
  Forall (fun w => w <> [] /\ trimmed w) (split_on SP text) ->
  words_of (DisplayManager.wrap_lines font width text) = split_on SP text.
Proof.
  intros Hw. rewrite wrap_lines_pending, wrap_fold_words; [reflexivity| |now left].
  pose proof (split_on_words SP text) as Hs.
  rewrite List.Forall_forall in *. intros w Hin.
  destruct (Hw w Hin) as [H1 H2]. split; [exact H1|split; [exact H2|]].
  now apply Hs.
Qed.

Lemma wrapping_keeps_words_witness :
  words_of (DisplayManager.wrap_lines fixed_font 100 (py "hello world foo bar baz"))
  = split_on SP (py "hello world foo bar baz").
Proof.
  apply (wrapping_keeps_words fixed_font 100 (py "hello world foo bar baz")).
  repeat (constructor;
          [split; [discriminate|split; intros c E; vm_compute in E;
                                 injection E as <-; reflexivity]|]).
  constructor.
Defined.

(* ===================================================================== *)
(* 19. DisplayManager: what draw_text_box draws, and where                *)
(* ===================================================================== *)

Section Drawing.
Context `{Externals}.
Import DisplayManager.

Lemma draw_lines_texts font x width y_start line_height align lines :
  map (fun d => snd d) (draw_lines font x width y_start line_height align lines)
  = lines.
Proof.
  unfold draw_lines.
  assert (Hgen : forall (f : nat -> str -> Z * Z * str) ls,
             (forall i l, snd (f i l) = l) -> map (fun d => snd d) (imap f ls) = ls).
  { intros f ls. revert f. induction ls as [|l ls IH]; intros f Hf; [reflexivity|].
    rewrite imap_cons. simpl. rewrite Hf, IH; [reflexivity|]. intros; apply Hf. }
  now apply Hgen.
Qed.

(* With room for at least one line, the call draws `shown`: the wrapped
   lines, or their cut to max_lines. *)
Lemma draw_text_box_form self text x y width height fs ls align valign line_height :
  let font := get_font self (font_size_or_default self fs) in
  let lines := wrap_lines font width text in
  let max_lines := height / line_height in
  int_times (bbox_height (font sample)) (line_spacing_or_default self ls)
  = Return line_height ->
  0 < line_height -> line_height <= height ->
  exists shown,
    shown = (if len lines <=? max_lines then lines
             else take (Z.to_nat max_lines - 1) lines
                  ++ [slice_to (-3) (default [] (lines !! (Z.to_nat max_lines - 1)%nat))
                      ++ ellipsis]) /\
    len shown = Z.min (len lines) max_lines /\
    draw_text_box self text x y width height fs ls align valign
    = Return (draw_lines font x width
                (if String.eqb valign "center"
                 then y + (height - len shown * line_height) / 2
                 else if String.eqb valign "bottom"
                      then y + height - len shown * line_height
                      else y)
                line_height align shown,
              len shown).
Proof.
  intros font lines max_lines Hlh Hpos Hroom. unfold draw_text_box.
  fold font. rewrite Hlh. cbn [bind]. unfold floordiv.
  destruct (Z.eqb_spec line_height 0) as [E|_]; [lia|]. cbn [bind].
  fold lines. fold max_lines.
  assert (Hmax : 0 < max_lines) by (apply Z.div_str_pos; lia).
  destruct (Z.leb_spec (len lines) max_lines) as [Hle|Hlt].
  - exists lines. split; [reflexivity|]. split; [lia|].
    now rewrite (truncate_fits max_lines lines Hle).
  - destruct (truncate_cuts max_lines lines Hmax Hlt) as (l & Hl & -> & Hlen).
    rewrite Hl. cbn [bind]. unfold default, from_option, id.
    exists (take (Z.to_nat max_lines - 1) lines ++ [slice_to (-3) l ++ ellipsis]).
    split; [reflexivity|]. split; [lia|reflexivity].
Qed.

End Drawing.

(** X12: when the box is at least one line high (0 < line_height <=
    height), draw_text_box returns; the texts it draws, in order, are the
    wrapped lines when there are at most height // line_height of them, and
    otherwise the first height // line_height wrapped lines with the last
    of these cut by three characters and ended with "..."; the count it
    returns is the number of texts drawn. *)
Theorem draw_text_box_shows `{Externals} (self : DisplayManager.t) (text : str)
    (x y width height : Z) (fs ls : option value) (align valign : string)
    (line_height : Z) :
  DisplayManager.int_times
    (DisplayManager.bbox_height
       (DisplayManager.get_font self (DisplayManager.font_size_or_default self fs)
          DisplayManager.sample))
    (DisplayManager.line_spacing_or_default self ls)
  = Return line_height ->
  0 < line_height -> line_height <= height ->
  exists img,
    DisplayManager.draw_text_box self text x y width height fs ls align valign
    = Return (img, len img) /\
    len img
    = Z.min (len (DisplayManager.wrap_lines
                    (DisplayManager.get_font self
                       (DisplayManager.font_size_or_default self fs)) width text))
            (height / line_height) /\
    map (fun d => snd d) img
    = (let lines :=
         DisplayManager.wrap_lines
           (DisplayManager.get_font self (DisplayManager.font_size_or_default self fs))
           width text in
       if len lines <=? height / line_height then lines
       else take (Z.to_nat (height / line_height) - 1) lines
            ++ [slice_to (-3)
                  (default [] (lines !! (Z.to_nat (height / line_height) - 1)%nat))
                ++ DisplayManager.ellipsis]).
Proof.
  intros Hlh Hpos Hroom.
  destruct (draw_text_box_form self text x y width height fs ls align valign
              line_height Hlh Hpos Hroom) as (shown & Hshown & Hlen & Hcall).
  eexists. rewrite Hcall. split; [|split].
  - f_equal. f_equal. unfold DisplayManager.draw_lines, len.
    now rewrite length_imap.
  - unfold DisplayManager.draw_lines, len at 1. rewrite length_imap.
    exact Hlen.
  - rewrite draw_lines_texts. exact Hshown.
Qed.

Lemma draw_text_box_shows_witness :
  exists img,
    DisplayManager.draw_text_box plain_display (py "hello world foo bar baz")
      0 0 100 70 None None "left" "top"
    = Return (img, len img) /\
    len img = 2.
Proof.
  destruct (draw_text_box_shows plain_display (py "hello world foo bar baz")
              0 0 100 70 None None "left" "top" 30)
    as (img & Hcall & Hlen & _); [reflexivity|lia|lia|].
  exists img. split; [exact Hcall|]. rewrite Hlen. reflexivity.
Defined.

(** X13: when the box is at least one line high, every line drawn by
    draw_text_box lies inside the box vertically, for every vertical
    alignment: y <= line_y and line_y + line_height <= y + height; the
    lines follow each other at a distance of line_height. A line whose
    measured width is between 0 and the width of the box also lies inside
    it horizontally, for every horizontal alignment. *)
Theorem drawn_lines_inside_box `{Externals} (self : DisplayManager.t) (text : str)
    (x y width height : Z) (fs ls : option value) (align valign : string)
    (line_height : Z) (img : list (Z * Z * str)) (n : Z) :
  DisplayManager.int_times
    (DisplayManager.bbox_height
       (DisplayManager.get_font self (DisplayManager.font_size_or_default self fs)
          DisplayManager.sample))
    (DisplayManager.line_spacing_or_default self ls)
  = Return line_height ->
  0 < line_height -> line_height <= height ->
  DisplayManager.draw_text_box self text x y width height fs ls align valign
  = Return (img, n) ->
  forall i line_x line_y line,
    img !! i = Some (line_x, line_y, line) ->
    (y <= line_y /\ line_y + line_height <= y + height) /\
    (forall line_x' line_y' line',
       img !! S i = Some (line_x', line_y', line') ->
       line_y' = line_y + line_height) /\
    (let text_width :=
       DisplayManager.bbox_width
         (DisplayManager.get_font self (DisplayManager.font_size_or_default self fs)
            line) in
     0 <= text_width <= width ->
     x <= line_x /\ line_x + text_width <= x + width).
Proof.
  intros Hlh Hpos Hroom Hcall i line_x line_y line Hi.
  destruct (draw_text_box_form self text x y width height fs ls align valign
              line_height Hlh Hpos Hroom) as (shown & _ & Hlen & Hcall').
  cbv zeta in Hlen, Hcall'. rewrite Hcall' in Hcall.
  injection Hcall as <- <-.
  set (font := DisplayManager.get_font self
                 (DisplayManager.font_size_or_default self fs)) in *.
  assert (Hfit : len shown * line_height <= height).
  { pose proof (Z.mul_div_le height line_height Hpos).
    pose proof (len_nonneg shown). nia. }
  set (d := height - len shown * line_height) in *.
  assert (Hd : 0 <= d) by (unfold d; lia).
  assert (Hhalf : 0 <= d / 2 <= d).
  { split; [apply Z.div_pos; lia|apply Z.div_le_upper_bound; lia]. }
  unfold DisplayManager.draw_lines in Hi |- *.
  rewrite list_lookup_imap in Hi.
  destruct (shown !! i) as [l|] eqn:Hl; [|discriminate].
  pose proof (lookup_lt_Some _ _ _ Hl) as Hlt.
  assert (Hi1 : Z.of_nat i + 1 <= len shown) by (unfold len; lia).
  injection Hi as <- <- <-.
  split; [|split].
  - destruct (String.eqb valign "center");
      [|destruct (String.eqb valign "bottom")]; fold d; nia.
  - intros lx' ly' l' Hn. rewrite list_lookup_imap in Hn.
    destruct (shown !! S i); [|discriminate]. injection Hn as _ <- _. lia.
  - cbv zeta. intros Hw.
    assert (Hh2 : 0 <= (width - DisplayManager.bbox_width (font l)) / 2
                  <= width - DisplayManager.bbox_width (font l)).
    { split; [apply Z.div_pos; lia|apply Z.div_le_upper_bound; lia]. }
    destruct (String.eqb align "center");
      [|destruct (String.eqb align "right")]; lia.
Qed.

Lemma drawn_lines_inside_box_witness :
  DisplayManager.draw_text_box plain_display (py "hello world foo bar baz")
    5 7 100 200 None None "center" "bottom"
  = Return ([(30, 117, py "hello"); (10, 147, py "world foo");
             (20, 177, py "bar baz")], 3) /\
  (7 <= 147 /\ 147 + 30 <= 7 + 200).
Proof.
  assert (Hcall :
    DisplayManager.draw_text_box plain_display (py "hello world foo bar baz")
      5 7 100 200 None None "center" "bottom"
    = Return ([(30, 117, py "hello"); (10, 147, py "world foo");
               (20, 177, py "bar baz")], 3)) by (vm_compute; reflexivity).
  split; [exact Hcall|].
  exact (proj1 (drawn_lines_inside_box plain_display (py "hello world foo bar baz")
                  5 7 100 200 None None "center" "bottom" 30 _ 3
                  eq_refl ltac:(lia) ltac:(lia) Hcall 1%nat 10 147 (py "world foo")
                  eq_refl)).
Defined.

(* ===================================================================== *)
(* 20. draw_text_page and the rendering of the screens                    *)
(* ===================================================================== *)

Section PageInfo.
Context `{Externals}.
Import DisplayManager.

(* A keyword list that holds page_info is not accepted by draw_text_box. *)
Lemma page_info_not_accepted self text x y width height kw v :
  kw_get "page_info" kw = Some v ->
  draw_text_box_kw self text x y width height kw = Raise TypeError.
Proof.
  unfold kw_get, draw_text_box_kw.
  destruct (List.find _ kw) as [p|] eqn:Ef; [|discriminate]. intros _.
  apply find_some in Ef as [Hin Hp]. apply String.eqb_eq in Hp.
  destruct (forallb _ kw) eqn:Ea; [|reflexivity].
  rewrite forallb_forall in Ea. specialize (Ea p Hin).
  rewrite Hp in Ea. discriminate Ea.
Qed.

Lemma page_info_rejected self text kw v :
  kw_get "page_info" kw = Some v ->
  draw_text_page self text kw
  = match default (VInt 20) (config self !! "margin"%string) with
    | VFloat _ => None
    | _ => Some (Raise TypeError)
    end.
Proof.
  intros Hkw. unfold draw_text_page, text_page.
  destruct (default _ _); try reflexivity;
    now rewrite (page_info_not_accepted _ _ _ _ _ _ _ _ Hkw).
Qed.

End PageInfo.

(** X14: draw_text_page called with a page_info keyword never returns an
    image: the keywords are passed on to draw_text_box, which has no
    page_info parameter, so the call is a TypeError whatever the text and
    the other keywords (the branch that draws the page info is never
    reached). With a float margin the geometry is not modelled. *)
Theorem draw_text_page_rejects_page_info `{Externals} (self : DisplayManager.t)
    (text : str) (kw : DisplayManager.kwargs) (v : value) :
  DisplayManager.kw_get "page_info" kw = Some v ->
  DisplayManager.draw_text_page self text kw
  = match default (VInt 20) (DisplayManager.config self !! "margin"%string) with
    | VFloat _ => None
    | _ => Some (Raise TypeError)
    end.
Proof. apply page_info_rejected. Qed.

Lemma draw_text_page_rejects_page_info_witness :
  DisplayManager.draw_text_page plain_display (py "hello")
    [("font_size"%string, VInt 16); ("page_info"%string, VStr (py "1/3"))]
  = Some (Raise TypeError).
Proof.
  apply (draw_text_page_rejects_page_info plain_display (py "hello") _
           (VStr (py "1/3"))).
  reflexivity.
Defined.

Section Rendering.
Context `{Externals}.

(* The rows of books that exist are built without an exception. *)
Lemma rows_in_range self indices :
  Forall (fun i => 0 <= i < len (HomeScreen.books self)) indices ->
  exists rs, HomeScreen.rows self indices = Return rs.
Proof.
  induction 1 as [|i indices Hi _ [rs IH]]; [now exists []|].
  simpl. unfold HomeScreen.row, py_index.
  replace (i <? 0) with false by (symmetry; apply Z.ltb_ge; lia).
  replace (i <? 0) with false by (symmetry; apply Z.ltb_ge; lia).
  destruct (lookup_lt_is_Some_2 (HomeScreen.books self) (Z.to_nat i)) as [b Hb];
    [unfold len in Hi; lia|].
  rewrite Hb. cbn [bind]. rewrite IH. cbn [bind]. eauto.
Qed.

End Rendering.

(** X15: HomeScreen.render never hands an image to the display: it always
    passes page_info to draw_text_page. With a page size other than 0, a
    list page >= 0 and an int margin the exception is the TypeError of
    draw_text_box, even for an empty list of books. *)
Theorem home_render_never_draws `{Externals} (dm : DisplayManager.t)
    (listed : list HomeScreen.book) (self : HomeScreen.t) :
  (forall img, snd (HomeScreen.render dm listed self) <> Some (Return img)) /\
  (HomeScreen.items_per_page self <> 0 ->
   0 <= HomeScreen.current_page self ->
   (forall f, DisplayManager.config dm !! "margin"%string <> Some (VFloat f)) ->
   snd (HomeScreen.render dm listed self) = Some (Raise TypeError)).
Proof.
  unfold HomeScreen.render. cbv zeta.
  cbn [HomeScreen.books HomeScreen.items_per_page HomeScreen.current_page].
  split.
  - intros img.
    destruct (floordiv _ _) as [total|e]; cbn [snd]; [|discriminate].
    destruct (HomeScreen.rows _ _) as [rs|e]; cbn [snd]; [|discriminate].
    erewrite page_info_rejected by reflexivity.
    destruct (default _ _); discriminate.
  - intros Hipp Hcp Hm. unfold floordiv.
    destruct (Z.eqb_spec (HomeScreen.items_per_page self) 0); [congruence|].
    match goal with
    | |- context [HomeScreen.rows ?st ?ix] =>
        destruct (rows_in_range st ix) as [rs Hrs]
    end.
    { apply List.Forall_forall. intros i Hi. apply list_elem_of_In in Hi.
      apply elem_of_seqZ in Hi. cbn [HomeScreen.books]. nia. }
    rewrite Hrs. cbn [snd]. erewrite page_info_rejected by reflexivity.
    destruct (DisplayManager.config dm !! "margin"%string) as [[]|] eqn:Em;
      try reflexivity.
    exfalso. eapply Hm. reflexivity.
Qed.

Lemma home_render_never_draws_witness :
  snd (HomeScreen.render plain_display (HomeScreen.books shelf_of_13) shelf_of_13)
  = Some (Raise TypeError).
Proof.
  apply (home_render_never_draws plain_display (HomeScreen.books shelf_of_13)
           shelf_of_13); [discriminate|simpl; lia|discriminate].
Defined.

(** X16: ReadingScreen.render with a book open on a page that is not empty
    never hands an image to the display: it passes page_info to
    draw_text_page, and the call is the TypeError of draw_text_box (with a
    float margin the geometry is not modelled). *)
Theorem reading_render_never_draws_page `{Externals} (dm : DisplayManager.t)
    (path_name : str -> str) (sh : ReadingScreen.shared) (p : str) (c : N)
    (page_content : str) :
  BookManager.current_book_path (ReadingScreen.book_manager sh) = Some p ->
  BookManager.get_current_page (ReadingScreen.book_manager sh)
  = Some (c :: page_content) ->
  ReadingScreen.render dm path_name sh
  = match default (VInt 20) (DisplayManager.config dm !! "margin"%string) with
    | VFloat _ => None
    | _ => Some (Raise TypeError)
    end.
Proof.
  intros Hp Hpage. unfold ReadingScreen.render. rewrite Hp, Hpage.
  now erewrite page_info_rejected by reflexivity.
Qed.

Lemma reading_render_never_draws_page_witness :
  ReadingScreen.render plain_display (fun p => p) on_last_page
  = Some (Raise TypeError).
Proof.
  apply (reading_render_never_draws_page plain_display (fun p => p) on_last_page
           (py "books/a.txt") 116%N (py "hree")); reflexivity.
Defined.

(* ===================================================================== *)
(* 21. main.py: the dispatch of events                                    *)
(* ===================================================================== *)

Section Dispatch.
Context `{Externals}.
Import EinkReader.

Lemma dispatch_echo self ev data :
  echoed self ev -> dispatch self ev data = (self, Return (Some (ev, PNone))).
Proof.
  destruct self as [r cs sh h rd m effs]. unfold echoed, dispatch.
  cbn [current_screen home reading menu shared].
  intros [[-> ->]|[[-> [-> | ->]]|[-> ->]]]; reflexivity.
Qed.

Lemma echo_overflows depth w self ev data :
  echoed self ev -> handle_event depth w self ev data = (self, Failed RecursionError).
Proof.
  intros He. revert data. induction depth as [|depth IH]; intros data;
    [reflexivity|].
  cbn [handle_event]. rewrite (dispatch_echo self ev data He).
  now rewrite IH.
Qed.

End Dispatch.

(** X17: an event that the current screen answers with the same event
    (SHOW_MENU on the Home screen, SHOW_HOME and SHOW_MENU on the Reading
    screen, SHOW_HOME on the Menu screen) never returns from handle_event:
    the command is handled by a recursive call before the screen is
    switched, so whatever depth of recursion is allowed, the call ends in
    RecursionError with the application unchanged. The MENU button on the
    Home screen is such an event. *)
Theorem echoed_event_overflows `{Externals} (depth : nat) (w : EinkReader.World)
    (self : EinkReader.t) (ev : string) (data : payload) :
  echoed self ev ->
  EinkReader.handle_event depth w self ev data
  = (self, EinkReader.Failed EinkReader.RecursionError) /\
  (EinkReader.current_screen self = "home"%string ->
   EinkReader.handle_button depth w self "MENU"
   = (self, EinkReader.Failed EinkReader.RecursionError)).
Proof.
  intros He. split; [now apply echo_overflows|].
  intros Hh. unfold EinkReader.handle_button. cbn.
  apply echo_overflows. left. now split.
Qed.

Lemma echoed_event_overflows_witness :
  echoed (app_on "reading") "SHOW_HOME" /\
  EinkReader.handle_event 1000 small_world (app_on "reading") "SHOW_HOME" PNone
  = (app_on "reading", EinkReader.Failed EinkReader.RecursionError).
Proof.
  assert (He : echoed (app_on "reading") "SHOW_HOME")
    by (right; left; split; [reflexivity|now left]).
  split; [exact He|].
  exact (proj1 (echoed_event_overflows 1000 small_world (app_on "reading")
                  "SHOW_HOME" PNone He)).
Defined.

Section Screens.
Context `{Externals}.
Import EinkReader.

Lemma dispatch_screen self ev data :
  current_screen (fst (dispatch self ev data)) = current_screen self.
Proof.
  unfold dispatch.
  destruct (String.eqb (current_screen self) "home");
    [now destruct (HomeScreen.handle_event _ _ _)|].
  destruct (String.eqb (current_screen self) "reading");
    [now destruct (ReadingScreen.handle_event _ _ _ _) as [[? ?] ?]|].
  destruct (String.eqb (current_screen self) "menu");
    [now destruct (MenuScreen.handle_event _ _ _ _)|reflexivity].
Qed.

Lemma show_home_screen w self :
  current_screen (fst (show_home w self)) = current_screen self.
Proof.
  unfold show_home. destruct (HomeScreen.need_refresh _); [|reflexivity].
  destruct (HomeScreen.render _ _ _) as [home' r].
  now destruct (rendered r).
Qed.

Lemma show_current_screen_screen w self :
  current_screen (fst (show_current_screen w self)) = current_screen self.
Proof.
  unfold show_current_screen.
  destruct (String.eqb _ "home"); [apply show_home_screen|].
  destruct (String.eqb _ "reading").
  { unfold show_reading. destruct (ReadingScreen.need_refresh _); [|reflexivity].
    now destruct (rendered _). }
  destruct (String.eqb _ "menu"); [|reflexivity].
  unfold show_menu. destruct (MenuScreen.need_refresh _); [|reflexivity].
  now destruct (rendered _).
Qed.

Lemma load_book_screen w self p :
  home_or_reading self -> home_or_reading (fst (load_book w self p)).
Proof.
  intros Hs. unfold load_book.
  destruct (BookManager.load_book _ _ _) as [bm [|]]; [|exact Hs].
  unfold home_or_reading. rewrite show_current_screen_screen. now right.
Qed.

(* The system part of an event other than SHOW_MENU stays on Home or
   Reading. *)
Lemma system_event_screen w self ev data :
  home_or_reading self -> ev <> "SHOW_MENU"%string ->
  home_or_reading (fst (system_event w self ev data)).
Proof.
  intros Hs Hev. unfold system_event.
  destruct (String.eqb ev "LOAD_BOOK");
    [destruct data; [exact Hs|now apply load_book_screen]|].
  destruct (String.eqb ev "EXIT"); [exact Hs|].
  destruct (String.eqb ev "SAVE_CONFIG"); [exact Hs|].
  destruct (String.eqb ev "SHOW_HOME").
  { unfold home_or_reading. rewrite show_current_screen_screen. now left. }
  destruct (String.eqb_spec ev "SHOW_MENU"); [congruence|exact Hs].
Qed.

Lemma show_menu_echoed self :
  home_or_reading self -> echoed self "SHOW_MENU".
Proof. intros [Hs|Hs]; [left|right; left]; auto. Qed.

Lemma handle_event_screen depth w self ev data :
  home_or_reading self ->
  home_or_reading (fst (handle_event depth w self ev data)).
Proof.
  revert self ev data. induction depth as [|depth IH]; intros self ev data Hs;
    [exact Hs|].
  destruct (String.eqb_spec ev "SHOW_MENU") as [->|Hev].
  { now rewrite (echo_overflows _ _ _ _ _ (show_menu_echoed self Hs)). }
  cbn [handle_event].
  pose proof (dispatch_screen self ev data) as Hd.
  destruct (dispatch self ev data) as [self1 [[[ev' data']|]|e]]; cbn [fst] in Hd.
  - assert (Hs1 : home_or_reading self1)
      by (unfold home_or_reading; now rewrite Hd).
    pose proof (IH self1 ev' data' Hs1) as Hs2.
    destruct (handle_event depth w self1 ev' data') as [self2 [|f]];
      cbn [fst] in *; [|exact Hs2].
    now apply system_event_screen.
  - apply system_event_screen; [|exact Hev].
    unfold home_or_reading. now rewrite Hd.
  - cbn [fst]. unfold home_or_reading. now rewrite Hd.
Qed.

End Screens.

(** X18: the Menu screen is never reached: from the Home or the Reading
    screen, whatever event is handled with whatever data and recursion
    depth, and however the call ends, the current screen is again Home or
    Reading; so it is after any sequence of events. (SHOW_MENU is echoed by
    both screens and never gets to the statement that switches to the
    menu.) *)
Theorem menu_screen_never_reached `{Externals} (depth : nat)
    (w : EinkReader.World) (self : EinkReader.t) :
  home_or_reading self ->
  (forall ev data,
     home_or_reading (fst (EinkReader.handle_event depth w self ev data))) /\
  (forall evs : list (string * payload),
     home_or_reading
       (fold_left (fun st e => fst (EinkReader.handle_event depth w st (fst e) (snd e)))
          evs self)).
Proof.
  intros Hs. split; [intros; now apply handle_event_screen|].
  intros evs. revert self Hs. induction evs as [|e evs IH]; intros self Hs;
    [exact Hs|].
  simpl. apply IH. now apply handle_event_screen.
Qed.

Lemma menu_screen_never_reached_witness :
  home_or_reading (app_on "home") /\
  home_or_reading
    (fst (EinkReader.handle_event 50 small_world (app_on "home") "SHOW_MENU" PNone)).
Proof.
  assert (Hs : home_or_reading (app_on "home")) by (now left).
  split; [exact Hs|].
  apply (proj1 (menu_screen_never_reached 50 small_world (app_on "home") Hs)).
Defined.

Section PageTurn.
Context `{Externals}.
Import EinkReader.

(* What a successful move on the Reading screen leaves behind. *)
Lemma turn_page w self ev data bm d :
  current_screen self = "reading"%string ->
  ReadingScreen.handle_event (shared self) (reading self) ev (as_value data)
  = ReadingScreen.moved bm (shared self) (reading self) ->
  ev <> "LOAD_BOOK"%string -> ev <> "EXIT"%string -> ev <> "SAVE_CONFIG"%string ->
  ev <> "SHOW_HOME"%string -> ev <> "SHOW_MENU"%string ->
  handle_event (S (S d)) w self ev data
  = (save_config
       (set_reading
          (set_shared self
             {| ReadingScreen.book_manager := bm;
                ReadingScreen.config :=
                  <["current_page"%string := VInt (BookManager.current_page bm)]>
                    (ReadingScreen.config (shared self)) |})
          {| ReadingScreen.selected_index :=
               ReadingScreen.selected_index (reading self);
             ReadingScreen.need_refresh := true |}), Done).
Proof.
  intros Hcs Hmove H1 H2 H3 H4 H5.
  destruct self as [r cs sh h rd m effs]. cbn [current_screen shared reading] in *.
  subst cs. cbn [handle_event]. unfold dispatch at 1.
  cbn [current_screen shared reading String.eqb Ascii.eqb Bool.eqb].
  rewrite Hmove. unfold ReadingScreen.moved.
  unfold dispatch.
  cbn [current_screen shared reading set_reading set_shared String.eqb Ascii.eqb
       Bool.eqb home menu running effects].
  unfold ReadingScreen.handle_event at 1.
  cbn [String.eqb Ascii.eqb Bool.eqb].
  unfold system_event at 1. cbn [String.eqb Ascii.eqb Bool.eqb].
  unfold system_event.
  rewrite (proj2 (String.eqb_neq _ _) H1), (proj2 (String.eqb_neq _ _) H2),
    (proj2 (String.eqb_neq _ _) H3), (proj2 (String.eqb_neq _ _) H4),
    (proj2 (String.eqb_neq _ _) H5).
  reflexivity.
Qed.

End PageTurn.

(** X19: a page turn on the Reading screen (NEXT_PAGE or PREV_PAGE with a
    successful move of the cursor, at least two nested calls allowed)
    returns with the cursor moved, the new page stored in the config and
    config.json written exactly once; no image is handed to the display and
    need_refresh is left set: the new page is not drawn. *)
Theorem page_turn_saves_without_display `{Externals} (d : nat)
    (w : EinkReader.World) (self : EinkReader.t) (bm : BookManager.t) :
  EinkReader.current_screen self = "reading"%string ->
  (BookManager.next_page (ReadingScreen.book_manager (EinkReader.shared self))
   = (bm, true) ->
   exists self',
     EinkReader.handle_event (S (S d)) w self "NEXT_PAGE" PNone
     = (self', EinkReader.Done) /\
     ReadingScreen.book_manager (EinkReader.shared self') = bm /\
     ReadingScreen.config (EinkReader.shared self')
     = <["current_page"%string := VInt (BookManager.current_page bm)]>
         (ReadingScreen.config (EinkReader.shared self)) /\
     EinkReader.effects self'
     = EinkReader.effects self
       ++ [EinkReader.SavedConfig (ReadingScreen.config (EinkReader.shared self'))] /\
     ReadingScreen.need_refresh (EinkReader.reading self') = true) /\
  (BookManager.prev_page (ReadingScreen.book_manager (EinkReader.shared self))
   = (bm, true) ->
   exists self',
     EinkReader.handle_event (S (S d)) w self "PREV_PAGE" PNone
     = (self', EinkReader.Done) /\
     ReadingScreen.book_manager (EinkReader.shared self') = bm /\
     ReadingScreen.config (EinkReader.shared self')
     = <["current_page"%string := VInt (BookManager.current_page bm)]>
         (ReadingScreen.config (EinkReader.shared self)) /\
     EinkReader.effects self'
     = EinkReader.effects self
       ++ [EinkReader.SavedConfig (ReadingScreen.config (EinkReader.shared self'))] /\
     ReadingScreen.need_refresh (EinkReader.reading self') = true).
Proof.
  intros Hcs. split; intros Hmove.
  - eexists. split; [apply (turn_page w self "NEXT_PAGE" PNone bm d Hcs);
                     try discriminate|].
    + unfold ReadingScreen.handle_event. cbn [String.eqb Ascii.eqb Bool.eqb].
      now rewrite Hmove.
    + repeat split.
  - eexists. split; [apply (turn_page w self "PREV_PAGE" PNone bm d Hcs);
                     try discriminate|].
    + unfold ReadingScreen.handle_event. cbn [String.eqb Ascii.eqb Bool.eqb].
      now rewrite Hmove.
    + repeat split.
Qed.

Lemma page_turn_saves_without_display_witness :
  exists self',
    EinkReader.handle_event 2 small_world (app_on "reading") "NEXT_PAGE" PNone
    = (self', EinkReader.Done) /\
    EinkReader.effects self'
    = [EinkReader.SavedConfig {["current_page"%string := VInt 1]}].
Proof.
  destruct (proj1 (page_turn_saves_without_display 0 small_world (app_on "reading")
                     (three_pages 1) eq_refl) eq_refl)
    as (self' & Hcall & _ & Hcfg & Heff & _).
  exists self'. split; [exact Hcall|]. rewrite Heff, Hcfg. reflexivity.
Defined.

Section Clicks.
Context `{Externals}.
Import EinkReader.

Lemma home_render_no_image dm listed s :
  exists f, rendered (snd (HomeScreen.render dm listed s)) = inl f.
Proof.
  unfold HomeScreen.render. cbv zeta.
  destruct (floordiv _ _) as [total|e]; cbn [snd]; [|eexists; reflexivity].
  destruct (HomeScreen.rows _ _) as [rs|e]; cbn [snd]; [|eexists; reflexivity].
  erewrite page_info_rejected by reflexivity.
  destruct (default _ _); eexists; reflexivity.
Qed.

Lemma quiet_refl self : home_or_reading self -> quiet self self.
Proof.
  intros Hs. unfold quiet. split; [exact Hs|]. split; [|auto].
  exists []. simpl. now rewrite app_nil_r.
Qed.

Lemma quiet_trans a b c : quiet a b -> quiet b c -> quiet a c.
Proof.
  intros (_ & [c1 E1] & P1 & Q1) (Hs & [c2 E2] & P2 & Q2).
  unfold quiet. split; [exact Hs|]. split; [|split; congruence].
  exists (c1 ++ c2). rewrite E2, E1, map_app. now rewrite app_assoc.
Qed.

(* The same screen, effects, book and pages. *)
Lemma quiet_same self self' :
  home_or_reading self ->
  current_screen self' = current_screen self ->
  effects self' = effects self ->
  BookManager.current_book_path (ReadingScreen.book_manager (shared self'))
  = BookManager.current_book_path (ReadingScreen.book_manager (shared self)) ->
  BookManager.pages (ReadingScreen.book_manager (shared self'))
  = BookManager.pages (ReadingScreen.book_manager (shared self)) ->
  quiet self self'.
Proof.
  intros Hs Hc He Hp Hg. unfold quiet, home_or_reading. rewrite Hc, He.
  split; [exact Hs|]. split; [|auto]. exists []. simpl. now rewrite app_nil_r.
Qed.

Lemma go_to_page_book bm n :
  BookManager.current_book_path (fst (BookManager.go_to_page bm n))
  = BookManager.current_book_path bm /\
  BookManager.pages (fst (BookManager.go_to_page bm n)) = BookManager.pages bm.
Proof. rewrite go_to_page_spec. now destruct (_ && _). Qed.

(* A move on the Reading screen, accepted or not. *)
Lemma reading_click_move self n :
  home_or_reading self ->
  let r := (let '(bm, ok) := BookManager.go_to_page
                               (ReadingScreen.book_manager (shared self)) n in
            if ok then ReadingScreen.moved bm (shared self) (reading self)
            else (shared self, reading self, None)) in
  quiet self (set_reading (set_shared self (fst (fst r))) (snd (fst r))) /\
  (forall c, snd r = Some c -> click_event (fst c)).
Proof.
  intros Hs. cbv zeta.
  destruct (go_to_page_book (ReadingScreen.book_manager (shared self)) n) as [Hp Hg].
  destruct (BookManager.go_to_page _ n) as [bm [|]]; cbn [fst snd] in *.
  - split; [now apply quiet_same|]. unfold ReadingScreen.moved. cbn [snd].
    intros c [= <-]. unfold click_event. simpl. auto 10.
  - split; [now apply quiet_same|]. discriminate.
Qed.

(* The screen's answer to a click event: nothing but its own state and the
   cursor changes, and the command is a click event again. *)
Lemma dispatch_click self ev data :
  home_or_reading self -> click_event ev ->
  quiet self (fst (dispatch self ev data)) /\
  (forall c, snd (dispatch self ev data) = Return (Some c) -> click_event (fst c)).
Proof.
  intros Hs Hev. unfold dispatch. destruct Hs as [Hcs|Hcs]; rewrite Hcs;
    cbn [String.eqb Ascii.eqb Bool.eqb].
  - assert (Hq : forall s, quiet self (set_home self s))
      by (intros s; apply quiet_same; [now left|reflexivity..]).
    destruct (HomeScreen.handle_event (home self) ev (as_value data)) as [s r] eqn:E.
    cbn [fst snd]. split; [apply Hq|]. intros c ->.
    unfold click_event in Hev. simpl in Hev.
    destruct Hev as [<-|[<-|[<-|[<-|[<-|[<-|[]]]]]]].
    + rewrite prev_event_eq in E. destruct (_ <? _);
        [injection E as _ <-; unfold click_event; simpl; auto 10|discriminate E].
    + rewrite next_event_eq in E. destruct (floordiv _ _); [|discriminate E].
      destruct (_ <? _);
        [injection E as _ <-; unfold click_event; simpl; auto 10|discriminate E].
    + unfold HomeScreen.handle_event in E.
      cbn [String.eqb Ascii.eqb Bool.eqb] in E. discriminate E.
    + unfold HomeScreen.handle_event in E.
      cbn [String.eqb Ascii.eqb Bool.eqb] in E.
      injection E as _ <-. unfold click_event; simpl; auto 10.
    + unfold HomeScreen.handle_event in E.
      cbn [String.eqb Ascii.eqb Bool.eqb] in E. discriminate E.
    + unfold HomeScreen.handle_event in E.
      cbn [String.eqb Ascii.eqb Bool.eqb] in E. discriminate E.
  - destruct (ReadingScreen.handle_event (shared self) (reading self) ev
                (as_value data)) as [[sh s] r] eqn:E.
    cbn [fst snd].
    unfold click_event in Hev. simpl in Hev.
    destruct Hev as [<-|[<-|[<-|[<-|[<-|[<-|[]]]]]]];
      unfold ReadingScreen.handle_event in E;
      cbn [String.eqb Ascii.eqb Bool.eqb] in E;
      unfold BookManager.next_page, BookManager.prev_page in E.
    + destruct (reading_click_move self
                  (BookManager.current_page
                     (ReadingScreen.book_manager (shared self)) - 1)
                  (or_intror Hcs)) as [Hq Hc].
      cbv zeta in Hq, Hc. rewrite E in Hq, Hc. cbn [fst snd] in Hq, Hc.
      split; [exact Hq|]. intros c [= ->]. now apply Hc.
    + destruct (reading_click_move self
                  (BookManager.current_page
                     (ReadingScreen.book_manager (shared self)) + 1)
                  (or_intror Hcs)) as [Hq Hc].
      cbv zeta in Hq, Hc. rewrite E in Hq, Hc. cbn [fst snd] in Hq, Hc.
      split; [exact Hq|]. intros c [= ->]. now apply Hc.
    + injection E as <- <- <-.
      split; [apply quiet_same; [now right|reflexivity..]|].
      intros c [= <-]. unfold click_event; simpl; auto 10.
    + injection E as <- <- <-.
      split; [apply quiet_same; [now right|reflexivity..]|].
      intros c [= <-]. unfold click_event; simpl; auto 10.
    + injection E as <- <- <-.
      split; [apply quiet_same; [now right|reflexivity..]|]. discriminate.
    + injection E as <- <- <-.
      split; [apply quiet_same; [now right|reflexivity..]|]. discriminate.
Qed.

(* Showing the Home screen displays nothing: its render never gives an
   image. *)
Lemma show_home_quiet w self :
  current_screen self = "home"%string -> quiet self (fst (show_home w self)).
Proof.
  intros Hcs. unfold show_home.
  destruct (HomeScreen.need_refresh _); [|apply quiet_refl; now left].
  destruct (home_render_no_image
              (display_manager w (ReadingScreen.config (shared self)))
              (list_books w) (home self)) as [f Hf].
  destruct (HomeScreen.render _ _ _) as [home' r]. cbn [snd] in Hf.
  rewrite Hf. cbn [fst]. apply quiet_same; [now left|reflexivity..].
Qed.

(* The system part of a click event other than SHOW_MENU writes the config
   at most. *)
Lemma system_event_click w self ev data :
  home_or_reading self -> click_event ev -> ev <> "SHOW_MENU"%string ->
  quiet self (fst (system_event w self ev data)).
Proof.
  intros Hs Hev Hne. unfold click_event in Hev. simpl in Hev.
  destruct Hev as [<-|[<-|[<-|[<-|[<-|[<-|[]]]]]]]; try congruence;
    unfold system_event; cbn [String.eqb Ascii.eqb Bool.eqb fst];
    try (now apply quiet_refl).
  - unfold show_current_screen.
    cbn [current_screen set_current_screen String.eqb Ascii.eqb Bool.eqb].
    eapply quiet_trans; [|apply show_home_quiet; reflexivity].
    unfold quiet, home_or_reading. cbn. split; [now left|].
    split; [|auto]. exists []. simpl. now rewrite app_nil_r.
  - unfold quiet, save_config, add_effect. cbn.
    split; [exact Hs|]. split; [|auto].
    now exists [ReadingScreen.config (shared self)].
Qed.

Lemma handle_event_click depth w self ev data :
  home_or_reading self -> click_event ev ->
  quiet self (fst (handle_event depth w self ev data)).
Proof.
  revert self ev data. induction depth as [|depth IH]; intros self ev data Hs Hev;
    [now apply quiet_refl|].
  destruct (String.eqb_spec ev "SHOW_MENU") as [->|Hne].
  { rewrite (echo_overflows _ _ _ _ _ (show_menu_echoed self Hs)).
    now apply quiet_refl. }
  cbn [handle_event].
  destruct (dispatch_click self ev data Hs Hev) as [Hq Hc].
  destruct (dispatch self ev data) as [self1 [[[ev' data']|]|e]];
    cbn [fst snd] in Hq, Hc.
  - assert (Hev' : click_event ev') by (apply (Hc (ev', data')); reflexivity).
    assert (Hs1 : home_or_reading self1) by apply Hq.
    pose proof (IH self1 ev' data' Hs1 Hev') as Hq2.
    destruct (handle_event depth w self1 ev' data') as [self2 [|f]];
      cbn [fst] in *.
    + eapply quiet_trans; [exact Hq|]. eapply quiet_trans; [exact Hq2|].
      apply system_event_click; [apply Hq2|exact Hev|exact Hne].
    + eapply quiet_trans; [exact Hq|exact Hq2].
  - eapply quiet_trans; [exact Hq|].
    apply system_event_click; [apply Hq|exact Hev|exact Hne].
  - exact Hq.
Qed.

End Clicks.

(** X20: from the Home or the Reading screen, a click of any button (PREV,
    NEXT, HOME, MENU or an unknown one), with whatever recursion depth and
    however the call ends, hands no image to the display and loads no book:
    the only effects added are writes of config.json, the book path and the
    pages are unchanged, and the screen is Home or Reading again. A long
    press does the same. *)
Theorem clicks_never_display `{Externals} (depth : nat) (w : EinkReader.World)
    (self : EinkReader.t) (button : string) :
  home_or_reading self ->
  quiet self (fst (EinkReader.handle_button depth w self button)) /\
  quiet self (fst (EinkReader.handle_button_long depth w self button)).
Proof.
  intros Hs. split.
  - unfold EinkReader.handle_button, EinkReader.button_event.
    repeat match goal with
           | |- context [String.eqb button ?b] => destruct (String.eqb button b)
           end;
      try (apply handle_event_click; [exact Hs|unfold click_event; simpl; auto 10]).
    now apply quiet_refl.
  - unfold EinkReader.handle_button_long.
    destruct (String.eqb button "HOME"); [|now apply quiet_refl].
    destruct depth as [|depth]; [now apply quiet_refl|].
    cbn [EinkReader.handle_event].
    pose proof (dispatch_screen self "EXIT" PNone) as Hd.
    assert (Hx : EinkReader.dispatch self "EXIT" PNone = (self, Return None)).
    { destruct self as [r cs sh h rd m effs]. unfold EinkReader.dispatch.
      cbn [EinkReader.current_screen EinkReader.home EinkReader.reading
           EinkReader.menu EinkReader.shared] in *.
      destruct Hs as [Hs|Hs]; cbn in Hs; subst cs; reflexivity. }
    rewrite Hx. unfold EinkReader.system_event. cbn [String.eqb Ascii.eqb Bool.eqb fst].
    apply quiet_same; [exact Hs|reflexivity..].
Qed.

Lemma clicks_never_display_witness :
  home_or_reading (app_on "home") /\
  quiet (app_on "home")
    (fst (EinkReader.handle_button 50 small_world (app_on "home") "HOME")).
Proof.
  assert (Hs : home_or_reading (app_on "home")) by (now left).
  split; [exact Hs|].
  apply (proj1 (clicks_never_display 50 small_world (app_on "home") "HOME" Hs)).
Defined.

Section Opening.
Context `{Externals}.
Import EinkReader.

(* Showing the Reading screen on a page that is not empty fails in
   render. *)
Lemma show_reading_page w self p c pc :
  current_screen self = "reading"%string ->
  ReadingScreen.need_refresh (reading self) = true ->
  BookManager.current_book_path (ReadingScreen.book_manager (shared self)) = Some p ->
  BookManager.get_current_page (ReadingScreen.book_manager (shared self))
  = Some (c :: pc) ->
  (forall f, DisplayManager.config
               (display_manager w (ReadingScreen.config (shared self)))
             !! "margin"%string <> Some (VFloat f)) ->
  show_current_screen w self = (self, Failed (Exception TypeError)).
Proof.
  intros Hcs Hn Hp Hpage Hm. unfold show_current_screen. rewrite Hcs.
  cbn [String.eqb Ascii.eqb Bool.eqb]. unfold show_reading. rewrite Hn.
  unfold ReadingScreen.render. rewrite Hp, Hpage.
  erewrite page_info_rejected by reflexivity.
  destruct (DisplayManager.config _ !! "margin"%string) as [[]|] eqn:Em;
    try reflexivity.
  exfalso. eapply Hm. reflexivity.
Qed.

End Opening.

(** X21: SELECT on the Home screen with a book selected whose file loads
    and whose first page is not empty ends in TypeError: the book is
    loaded, its path and page 0 are stored in the config, config.json is
    written and the Reading screen becomes the current screen, but its
    render passes page_info to draw_text_page, so no page of the book is
    displayed. (The Reading screen has need_refresh set, as from its
    construction on; the margin is no float; two nested calls are
    allowed.) *)
Theorem select_book_fails_to_render `{Externals} (d : nat) (w : EinkReader.World)
    (self : EinkReader.t) (b : HomeScreen.book) (bm : BookManager.t)
    (c : N) (pc : str) :
  EinkReader.current_screen self = "home"%string ->
  0 <= HomeScreen.selected_index (EinkReader.home self) ->
  HomeScreen.books (EinkReader.home self)
    !! Z.to_nat (HomeScreen.selected_index (EinkReader.home self)) = Some b ->
  BookManager.load_book (EinkReader.fs w)
    (ReadingScreen.book_manager (EinkReader.shared self)) (HomeScreen.path b)
  = (bm, true) ->
  BookManager.current_book_path bm = Some (HomeScreen.path b) ->
  BookManager.get_current_page bm = Some (c :: pc) ->
  ReadingScreen.need_refresh (EinkReader.reading self) = true ->
  (forall cfg f, DisplayManager.config (EinkReader.display_manager w cfg)
                 !! "margin"%string <> Some (VFloat f)) ->
  exists self',
    EinkReader.handle_event (S (S d)) w self "SELECT" PNone
    = (self', EinkReader.Failed (EinkReader.Exception TypeError)) /\
    EinkReader.current_screen self' = "reading"%string /\
    ReadingScreen.book_manager (EinkReader.shared self') = bm /\
    ReadingScreen.config (EinkReader.shared self')
    = <["current_page"%string := VInt 0]>
        (<["current_book"%string := VStr (HomeScreen.path b)]>
           (ReadingScreen.config (EinkReader.shared self))) /\
    EinkReader.effects self'
    = EinkReader.effects self
      ++ [EinkReader.SavedConfig (ReadingScreen.config (EinkReader.shared self'))].
Proof.
  intros Hcs Hsel Hb Hload Hpath Hpage Hn Hm.
  destruct self as [r cs sh h rd m effs].
  cbn [EinkReader.current_screen EinkReader.home EinkReader.shared
       EinkReader.reading EinkReader.effects] in *. subst cs.
  assert (Hlt : HomeScreen.selected_index h < len (HomeScreen.books h))
    by (apply lookup_lt_Some in Hb; unfold len; lia).
  assert (Hselect : HomeScreen.handle_event h "SELECT" VNone
                    = (h, Return (Some ("LOAD_BOOK"%string, PPath (HomeScreen.path b))))).
  { rewrite select_event_eq, Hb.
    now replace ((0 <=? HomeScreen.selected_index h)
                 && (HomeScreen.selected_index h <? len (HomeScreen.books h)))
      with true by (symmetry; apply andb_true_iff; split;
                    [apply Z.leb_le|apply Z.ltb_lt]; lia). }
  eexists. split.
  - cbn [EinkReader.handle_event]. unfold EinkReader.dispatch at 1.
    cbn [EinkReader.current_screen EinkReader.home String.eqb Ascii.eqb Bool.eqb
         EinkReader.as_value].
    rewrite Hselect. unfold EinkReader.dispatch.
    cbn [EinkReader.current_screen EinkReader.home EinkReader.set_home
         String.eqb Ascii.eqb Bool.eqb EinkReader.as_value
         EinkReader.running EinkReader.shared EinkReader.reading EinkReader.menu
         EinkReader.effects].
    unfold HomeScreen.handle_event at 1. cbn [String.eqb Ascii.eqb Bool.eqb].
    unfold EinkReader.system_event at 1. cbn [String.eqb Ascii.eqb Bool.eqb].
    unfold EinkReader.load_book.
    cbn [EinkReader.set_home EinkReader.shared EinkReader.running
         EinkReader.current_screen EinkReader.home EinkReader.reading
         EinkReader.menu EinkReader.effects].
    rewrite Hload.
    erewrite (show_reading_page w _ (HomeScreen.path b) c pc);
      [reflexivity|reflexivity|exact Hn|exact Hpath|exact Hpage|].
    intros f. apply Hm.
  - cbn. auto.
Qed.

Lemma select_book_fails_to_render_witness :
  exists self',
    EinkReader.handle_event 2 small_world app_fresh "SELECT" PNone
    = (self', EinkReader.Failed (EinkReader.Exception TypeError)) /\
    EinkReader.current_screen self' = "reading"%string.
Proof.
  assert (Hm : forall cfg f,
             DisplayManager.config (EinkReader.display_manager small_world cfg)
             !! "margin"%string <> Some (VFloat f))
    by (intros cfg f; discriminate).
  destruct (select_book_fails_to_render 0 small_world app_fresh book_b
              (fst (BookManager.load_book one_txt BookManager.init (py "books/b.txt")))
              65%N (py "AAA" ++ [NL] ++ py "BBBB")
              eq_refl ltac:(simpl; lia) eq_refl eq_refl eq_refl eq_refl eq_refl Hm)
    as (self' & Hcall & Hcs & _).
  exists self'. split; [exact Hcall|exact Hcs].
Defined.


